(** * Temperature Alert skill: the alert engine of [temperature_alert.py]

    A shallow embedding of [TemperatureAlert] (construction, [_check_alert],
    the body of [_monitor_loop]) and the properties of its threshold /
    hysteresis classifier, its rate-of-change check, its history window and
    its handling of failed reads.

    Python floats are IEEE 754 binary64 numbers; they are modelled by the
    Standard Library's executable specification [spec_float] at precision 53
    and maximal exponent 1024, so that signed zeros, infinities and NaN behave
    as they do in the program. *)

From Stdlib Require Import ZArith List Bool String Lia.
From Stdlib Require Import SpecFloat.
Import ListNotations.
Open Scope string_scope.
Open Scope list_scope.

(* ===================================================================== *)
(** ** Python floats *)
(* ===================================================================== *)

Module PyFloat.

Definition float := spec_float.

Definition prec : Z := 53.
Definition emax : Z := 1024.

(** [float(z)] for an integer that needs no rounding; also used for the
    literals of the examples. *)
Definition of_Z (z : Z) : float := binary_normalize prec emax z 0 false.

(** [m * 2**e], correctly rounded. *)
Definition of_bits (m e : Z) : float := binary_normalize prec emax m e false.

Definition zero : float := S754_zero false.
Definition nan : float := S754_nan.

Definition sub (x y : float) : float := SFsub prec emax x y.
Definition fdiv (x y : float) : float := SFdiv prec emax x y.
Definition abs (x : float) : float := SFabs x.

(** The comparison operators [<], [<=], [>], [>=]; each is false as soon
    as one operand is NaN. *)
Definition ltb (x y : float) : bool := SFltb x y.
Definition leb (x y : float) : bool := SFleb x y.
Definition gtb (x y : float) : bool := SFltb y x.
Definition geb (x y : float) : bool := SFleb y x.

(** [x == 0.0]: both signed zeros, nothing else. *)
Definition is_zero (x : float) : bool :=
  match x with
  | S754_zero _ => true
  | _ => false
  end.

(** Truth value of a float in a condition: [bool(x)] is [x != 0.0], so
    NaN and the infinities are true. *)
Definition truthy (x : float) : bool := negb (is_zero x).

End PyFloat.

Import PyFloat.

Declare Scope pyfloat_scope.
Delimit Scope pyfloat_scope with py.
Infix "-" := sub : pyfloat_scope.
Infix "<?" := ltb : pyfloat_scope.
Infix "<=?" := leb : pyfloat_scope.
Infix ">?" := gtb : pyfloat_scope.
Infix ">=?" := geb : pyfloat_scope.

(* ===================================================================== *)
(** ** Exceptions, the notification sink and the engine's state *)
(* ===================================================================== *)

(** The exception classes the engine itself raises.  [ClientSetupError]
    stands for whatever escapes the paho client calls of
    [MQTTSensor.__init__] (broker parsing, connect, subscribe); its Python
    class is not tracked. *)
Inductive exn : Type :=
| ValueError (msg : string)
| ImportError (msg : string)
| ZeroDivisionError
| ClientSetupError (detail : string).

(** The two messages the engine formats.  The f-strings
    ["Temperature changing too fast: {rate:.1f}°C/min"] and
    ["Temperature exceeded threshold: {threshold}°C"] are kept as their
    format and the number they interpolate. *)
Inductive message : Type :=
| TemperatureChangingTooFast (rate_of_change : float)
| TemperatureExceededThreshold (threshold : float).

(** One call [notifier.send(message, temperature, alert)]. *)
Record send_call : Type := Send {
  sc_message : message;
  sc_temperature : float;
  sc_alert : bool
}.

Record SensorConfig : Type := {
  sensor_type : string;
  file_path : option string;
  url : option string;
  headers : option (list (string * string));
  broker : option string;
  topic : option string;
  pin : option Z
}.

Record AlertConfig : Type := {
  threshold : float;
  hysteresis : float;
  check_interval : Z;
  rate_of_change_threshold : float;
  notification_type : string;
  notification_config : list (string * string)
}.

Inductive TemperatureSensor : Type :=
| FileSensor (file_path : option string)
| HTTPSensor (url : option string) (headers : list (string * string))
| MQTTSensor (broker topic : option string)
| GPIOSensor (pin : option Z).

Fixpoint dict_get (d : list (string * string)) (k : string) : option string :=
  match d with
  | [] => None
  | (k', v) :: d' => if String.eqb k' k then Some v else dict_get d' k
  end.

Inductive Notifier : Type :=
| TelegramNotifier (bot_token chat_id : option string)
| DiscordNotifier (webhook_url : option string)
| WebhookNotifier (url : option string) (method : string).

(** The fields of a [TemperatureAlert] object. *)
Record TemperatureAlert : Type := {
  sensor_config : SensorConfig;
  alert_config : AlertConfig;
  sensor : TemperatureSensor;
  notifier : Notifier;
  _running : bool;
  _current_temp : option float;
  _alert_active : bool;
  _last_temp : option float;
  _last_check_time : option float;
  _history : list float
}.

(** What a method runs in: the object and the calls the notifier has
    received so far, oldest first. *)
Record world : Type := World {
  self : TemperatureAlert;
  sink : list send_call
}.

(** A method either returns or raises; the mutations made before a [raise]
    stay. *)
Inductive outcome (A : Type) : Type :=
| Return (a : A) (w : world)
| Raise (e : exn) (w : world).
Arguments Return {A} a w.
Arguments Raise {A} e w.

Definition M (A : Type) : Type := world -> outcome A.

Definition ret {A} (a : A) : M A := fun w => Return a w.

Definition bind {A B} (c : M A) (k : A -> M B) : M B :=
  fun w =>
    match c w with
    | Return a w' => k a w'
    | Raise e w' => Raise e w'
    end.

Definition raise {A} (e : exn) : M A := fun w => Raise e w.

Declare Scope py_monad_scope.
Delimit Scope py_monad_scope with pym.
Notation "x <- c ;; k" := (bind c (fun x => k))
  (at level 61, c at next level, right associativity) : py_monad_scope.
Notation "c ;; k" := (bind c (fun _ => k))
  (at level 61, right associativity) : py_monad_scope.
Open Scope py_monad_scope.

Definition get_self : M TemperatureAlert := fun w => Return (self w) w.

Definition modify (f : TemperatureAlert -> TemperatureAlert) : M unit :=
  fun w => Return tt (World (f (self w)) (sink w)).

(** [self.notifier.send(message, temperature, alert)]: every notifier
    catches its own delivery errors, so the call always returns. *)
Definition notifier_send (m : message) (temperature : float) (alert : bool)
  : M unit :=
  fun w => Return tt (World (self w) (sink w ++ [Send m temperature alert])).

Definition set_running (v : bool) (s : TemperatureAlert) :=
  {| sensor_config := sensor_config s; alert_config := alert_config s;
     sensor := sensor s; notifier := notifier s; _running := v;
     _current_temp := _current_temp s; _alert_active := _alert_active s;
     _last_temp := _last_temp s; _last_check_time := _last_check_time s;
     _history := _history s |}.

Definition set_current_temp (v : option float) (s : TemperatureAlert) :=
  {| sensor_config := sensor_config s; alert_config := alert_config s;
     sensor := sensor s; notifier := notifier s; _running := _running s;
     _current_temp := v; _alert_active := _alert_active s;
     _last_temp := _last_temp s; _last_check_time := _last_check_time s;
     _history := _history s |}.

Definition set_alert_active (v : bool) (s : TemperatureAlert) :=
  {| sensor_config := sensor_config s; alert_config := alert_config s;
     sensor := sensor s; notifier := notifier s; _running := _running s;
     _current_temp := _current_temp s; _alert_active := v;
     _last_temp := _last_temp s; _last_check_time := _last_check_time s;
     _history := _history s |}.

Definition set_last_temp (v : option float) (s : TemperatureAlert) :=
  {| sensor_config := sensor_config s; alert_config := alert_config s;
     sensor := sensor s; notifier := notifier s; _running := _running s;
     _current_temp := _current_temp s; _alert_active := _alert_active s;
     _last_temp := v; _last_check_time := _last_check_time s;
     _history := _history s |}.

Definition set_last_check_time (v : option float) (s : TemperatureAlert) :=
  {| sensor_config := sensor_config s; alert_config := alert_config s;
     sensor := sensor s; notifier := notifier s; _running := _running s;
     _current_temp := _current_temp s; _alert_active := _alert_active s;
     _last_temp := _last_temp s; _last_check_time := v;
     _history := _history s |}.

Definition set_history (v : list float) (s : TemperatureAlert) :=
  {| sensor_config := sensor_config s; alert_config := alert_config s;
     sensor := sensor s; notifier := notifier s; _running := _running s;
     _current_temp := _current_temp s; _alert_active := _alert_active s;
     _last_temp := _last_temp s; _last_check_time := _last_check_time s;
     _history := v |}.

(** [x / y] on floats raises when the divisor is a zero. *)
Definition py_div (x y : float) : M float :=
  if is_zero y then raise ZeroDivisionError else ret (fdiv x y).

(** Truth value of an [Optional[float]]: [None] and both zeros are false. *)
Definition opt_truthy (o : option float) : bool :=
  match o with
  | None => false
  | Some x => truthy x
  end.

(* ===================================================================== *)
(** ** [TemperatureAlert._check_alert] *)
(* ===================================================================== *)

Definition sixty : float := of_Z 60.

(** The rate-of-change check.  [now] is the value [time.time()] returns
    when the check reads the clock. *)
Definition rate_of_change_check (temperature now : float) : M unit :=
  s <- get_self ;;
  if opt_truthy (_last_temp s) && opt_truthy (_last_check_time s) then
    match _last_temp s, _last_check_time s with
    | Some last_temp, Some last_check_time =>
        let time_diff := (now - last_check_time)%py in
        if (time_diff >? zero)%py then
          rate_of_change <-
            py_div (abs (temperature - last_temp)%py) (fdiv time_diff sixty) ;;
          if (rate_of_change >? rate_of_change_threshold (alert_config s))%py
          then notifier_send (TemperatureChangingTooFast rate_of_change)
                 temperature true
          else ret tt
        else ret tt
    | _, _ => ret tt
    end
  else ret tt.

(** The threshold check with hysteresis. *)
Definition threshold_check (temperature : float) : M bool :=
  s <- get_self ;;
  let threshold := threshold (alert_config s) in
  if (temperature >=? threshold)%py && negb (_alert_active s) then
    modify (set_alert_active true) ;;
    ret true
  else if (temperature <? (threshold - hysteresis (alert_config s)))%py
          && _alert_active s then
    modify (set_alert_active false) ;;
    ret false
  else
    s' <- get_self ;;
    ret (_alert_active s').

(** [_check_alert]: the rate-of-change check, then the threshold check;
    an exception of the first leaves before the second. *)
Definition _check_alert (temperature now : float) : M bool :=
  rate_of_change_check temperature now ;;
  threshold_check temperature.

(* ===================================================================== *)
(** ** [TemperatureAlert._monitor_loop] *)
(* ===================================================================== *)

(** What one iteration of the loop receives from outside: the value
    [self.sensor.read_temperature()] returns, the clock value read inside
    [_check_alert], and the clock value read at the end of the iteration. *)
Record tick : Type := Tick {
  reading : option float;
  t_check : float;
  t_end : float
}.

(** The statements inside [try:]. *)
Definition cycle_body (k : tick) : M unit :=
  (match reading k with
   | Some temperature =>
       modify (set_current_temp (Some temperature)) ;;
       modify (fun s => set_history (_history s ++ [temperature]) s) ;;
       s <- get_self ;;
       (if (100 <? List.length (_history s))%nat
        then modify (fun s => set_history (tl (_history s)) s)
        else ret tt) ;;
       alert <- _check_alert temperature (t_check k) ;;
       (if alert : bool
        then
          s <- get_self ;;
          notifier_send
            (TemperatureExceededThreshold (threshold (alert_config s)))
            temperature true
        else ret tt)
   | None => ret tt
   end) ;;
  modify (set_last_temp (reading k)) ;;
  modify (set_last_check_time (Some (t_end k))).

(** One iteration: [except Exception] logs the error and goes on, keeping
    the mutations made so far.  [escaped] tells whether the [try] block
    was left by an exception. *)
Definition poll_cycle (k : tick) (w : world) : world :=
  match cycle_body k w with
  | Return _ w' => w'
  | Raise _ w' => w'
  end.

Definition escaped (k : tick) (w : world) : option exn :=
  match cycle_body k w with
  | Return _ _ => None
  | Raise e _ => Some e
  end.

(** The loop, given what each of its iterations would receive: it tests
    [self._running] before every iteration.  The flag is written by
    [start] and [stop] only, which run in the caller's thread. *)
Fixpoint _monitor_loop (ticks : list tick) (w : world) : world :=
  match ticks with
  | [] => w
  | k :: ticks' =>
      if _running (self w) then _monitor_loop ticks' (poll_cycle k w) else w
  end.

(** The part of [start] and of [stop] that writes the object: the flag.
    Creating and joining the thread is outside this model. *)
Definition start (w : world) : world :=
  if _running (self w) then w else World (set_running true (self w)) (sink w).

Definition stop (w : world) : world :=
  World (set_running false (self w)) (sink w).

(* ===================================================================== *)
(** ** Construction: [_create_sensor], [_create_notifier], [__init__] *)
(* ===================================================================== *)

(** What construction depends on outside the object: whether [paho.mqtt]
    could be imported, and what the client calls of [MQTTSensor.__init__]
    do for a broker and a topic ([None]: they return; [Some d]: one of them
    raises). *)
Record environment : Type := {
  MQTT_AVAILABLE : bool;
  mqtt_client_setup : option string -> option string -> option string
}.

Definition MQTTSensor_init (env : environment) (broker topic : option string)
  : exn + TemperatureSensor :=
  if negb (MQTT_AVAILABLE env) then inl (ImportError "paho-mqtt not installed")
  else
    match mqtt_client_setup env broker topic with
    | Some d => inl (ClientSetupError d)
    | None => inr (MQTTSensor broker topic)
    end.

Definition _create_sensor (env : environment) (config : SensorConfig)
  : exn + TemperatureSensor :=
  if sensor_type config =? "file" then
    inr (FileSensor (file_path config))
  else if sensor_type config =? "http" then
    inr (HTTPSensor (url config)
           (match headers config with Some h => h | None => [] end))
  else if sensor_type config =? "mqtt" then
    MQTTSensor_init env (broker config) (topic config)
  else if sensor_type config =? "gpio" then
    inr (GPIOSensor (pin config))
  else
    inl (ValueError ("Unknown sensor type: " ++ sensor_type config)).

Definition _create_notifier (config : AlertConfig) : exn + Notifier :=
  let c := notification_config config in
  if notification_type config =? "telegram" then
    inr (TelegramNotifier (dict_get c "bot_token") (dict_get c "chat_id"))
  else if notification_type config =? "discord" then
    inr (DiscordNotifier (dict_get c "webhook_url"))
  else if notification_type config =? "webhook" then
    inr (WebhookNotifier (dict_get c "url")
           (match dict_get c "method" with Some m => m | None => "POST" end))
  else
    inl (ValueError
           ("Unknown notification type: " ++ notification_type config)).

Definition __init__ (env : environment)
    (sensor_config : SensorConfig) (alert_config : AlertConfig)
  : exn + TemperatureAlert :=
  match _create_sensor env sensor_config with
  | inl e => inl e
  | inr sensor =>
      match _create_notifier alert_config with
      | inl e => inl e
      | inr notifier =>
          inr {| sensor_config := sensor_config;
                 alert_config := alert_config;
                 sensor := sensor;
                 notifier := notifier;
                 _running := false;
                 _current_temp := None;
                 _alert_active := false;
                 _last_temp := None;
                 _last_check_time := None;
                 _history := [] |}
      end
  end.

(** The values of [sensor_type] and [notification_type] the two factories
    know. *)
Definition supported_sensor_type (t : string) : bool :=
  (t =? "file") || (t =? "http") || (t =? "mqtt") || (t =? "gpio").

Definition supported_notification_type (t : string) : bool :=
  (t =? "telegram") || (t =? "discord") || (t =? "webhook").

(* ===================================================================== *)
(** ** Vocabulary of the properties *)
(* ===================================================================== *)

(** The decision of the threshold check, as a function of the reading and
    of the alarm flag before. *)
Definition hysteresis_decision (c : AlertConfig) (active : bool)
    (temperature : float) : bool :=
  if (temperature >=? threshold c)%py && negb active then true
  else if (temperature <? (threshold c - hysteresis c))%py && active
       then false
       else active.

(** The object once the loop has stored a reading: [_current_temp] set,
    the reading appended to [_history], the oldest entry popped when that
    made more than 100. *)
Definition store_reading (temperature : float) (s : TemperatureAlert)
  : TemperatureAlert :=
  let s1 := set_current_temp (Some temperature) s in
  let s2 := set_history (_history s1 ++ [temperature]) s1 in
  if (100 <? List.length (_history s2))%nat
  then set_history (tl (_history s2)) s2
  else s2.

(** The object once the loop has updated the baseline of the rate check. *)
Definition store_baseline (k : tick) (s : TemperatureAlert)
  : TemperatureAlert :=
  set_last_check_time (Some (t_end k)) (set_last_temp (reading k) s).

(** The world a call leaves behind, whether it returned or raised. *)
Definition final_world {A} (o : outcome A) : world :=
  match o with
  | Return _ w => w
  | Raise _ w => w
  end.

(** The clock has advanced since [_last_check_time], but by so little
    that the elapsed minutes [time_diff / 60] round to zero.  Two values
    of [time.time()] (seconds since 1970) never differ by so little: this
    needs a difference below [2 ** -1069]. *)
Definition elapsed_minutes_underflow (s : TemperatureAlert) (now : float)
  : bool :=
  match _last_check_time s with
  | Some last_check_time =>
      ((now - last_check_time) >? zero)%py
      && is_zero (fdiv (now - last_check_time)%py sixty)
  | None => false
  end.

Definition is_rate_call (c : send_call) : bool :=
  match sc_message c with
  | TemperatureChangingTooFast _ => true
  | TemperatureExceededThreshold _ => false
  end.

(** The call the loop makes when [_check_alert] returned true. *)
Definition threshold_call (s : TemperatureAlert) (temperature : float)
  : send_call :=
  Send (TemperatureExceededThreshold (threshold (alert_config s)))
    temperature true.

Definition threshold_calls (alert : bool) (s : TemperatureAlert)
    (temperature : float) : list send_call :=
  if alert then [threshold_call s temperature] else [].

(** The readings a run of the loop obtained, in order. *)
Definition successful_readings (ticks : list tick) : list float :=
  flat_map (fun k => match reading k with Some r => [r] | None => [] end)
    ticks.

(** The [n] most recent entries of a list, in order. *)
Definition most_recent {A} (n : nat) (l : list A) : list A :=
  skipn (List.length l - n) l.

(** The two errors of the factories: an unknown [sensor_type], an unknown
    [notification_type]. *)
Definition is_configuration_error (e : exn) : bool :=
  match e with
  | ValueError msg =>
      prefix "Unknown sensor type: " msg
      || prefix "Unknown notification type: " msg
  | _ => false
  end.

(** The object right after construction, with a notifier that has not
    been called yet. *)
Definition fresh_world (s : TemperatureAlert) : world := World s [].

(* ===================================================================== *)
(** ** Concrete configurations and runs *)
(* ===================================================================== *)

Module Examples.

Definition env : environment :=
  {| MQTT_AVAILABLE := false; mqtt_client_setup := fun _ _ => None |}.

Definition file_sensor : SensorConfig :=
  {| sensor_type := "file"; file_path := Some "/tmp/temp"; url := None;
     headers := None; broker := None; topic := None; pin := None |}.

(** [AlertConfig(threshold=30.0, notification_config={'url': ...})]. *)
Definition alert_30 : AlertConfig :=
  {| threshold := of_Z 30; hysteresis := of_Z 1; check_interval := 60;
     rate_of_change_threshold := of_Z 5; notification_type := "webhook";
     notification_config := [("url", "http://test.com")] |}.

Definition engine : TemperatureAlert :=
  {| sensor_config := file_sensor; alert_config := alert_30;
     sensor := FileSensor (Some "/tmp/temp");
     notifier := WebhookNotifier (Some "http://test.com") "POST";
     _running := false; _current_temp := None; _alert_active := false;
     _last_temp := None; _last_check_time := None; _history := [] |}.

(** The engine constructed and started. *)
Definition w_init : world := start (fresh_world engine).

(** A cycle that reads [r] while the clock shows [t]. *)
Definition read_at (r t : Z) : tick :=
  Tick (Some (of_Z r)) (of_Z t) (of_Z t).

Definition fail_at (t : Z) : tick := Tick None (of_Z t) (of_Z t).

(** After one reading of 20.0 at second 1000. *)
Definition w_20 : world := poll_cycle (read_at 20 1000) w_init.

(** After one reading of 0.0 at second 1000. *)
Definition w_0 : world := poll_cycle (read_at 0 1000) w_init.

(** After one reading of 31.0 at second 1000: the alarm is on. *)
Definition w_31 : world := poll_cycle (read_at 31 1000) w_init.

Definition t_29_5 : float := of_bits 59 (-1).
Definition t_28_9 : float := fdiv (of_Z 289) (of_Z 10).

(** The smallest positive float, [5e-324], and its double. *)
Definition tiny : float := S754_finite false 1 (-1074).
Definition two_tiny : float := S754_finite false 2 (-1074).

(** [n] cycles reading 1.0, 2.0, ..., one minute apart. *)
Definition ramp (n : nat) : list tick :=
  map (fun i => read_at (Z.of_nat i) (60 * Z.of_nat i)) (seq 1 n).

End Examples.

(* ===================================================================== *)
(** ** Strings as the sensors use them *)
(* ===================================================================== *)

(** Python [str] values are kept as their UTF-8 bytes; searching for and
    splitting at the ASCII separators used here is the same on bytes and on
    code points. *)

(** [s.startswith(pre)]. *)
Fixpoint startswith (s pre : string) {struct pre} : bool :=
  match pre with
  | EmptyString => true
  | String a pre' =>
      match s with
      | EmptyString => false
      | String b s' => Ascii.eqb a b && startswith s' pre'
      end
  end.

(** [sub in s]. *)
Fixpoint str_in (sub s : string) : bool :=
  startswith s sub
  || match s with
     | EmptyString => false
     | String _ s' => str_in sub s'
     end.

(** [s.split(sep)] for a separator that is not empty: the pieces between
    the occurrences of [sep] found from the left, none overlapping another.
    [skip] counts the characters of a separator just found that are still
    to be passed. *)
Fixpoint split_from (sep : string) (skip : nat) (s : string) : list string :=
  match s with
  | EmptyString => [EmptyString]
  | String c s' =>
      match skip with
      | S n => split_from sep n s'
      | O =>
          if startswith s sep
          then EmptyString :: split_from sep (String.length sep - 1) s'
          else match split_from sep 0 s' with
               | piece :: pieces => String c piece :: pieces
               | [] => [String c EmptyString]
               end
      end
  end.

Definition str_split (s sep : string) : list string := split_from sep 0 s.

Definition newline : string := String (Ascii.ascii_of_nat 10) EmptyString.

(** [d.get(k)] on a dict with values of any type. *)
Fixpoint dict_lookup {V : Type} (d : list (string * V)) (k : string)
  : option V :=
  match d with
  | [] => None
  | (k', v) :: d' => if String.eqb k' k then Some v else dict_lookup d' k
  end.

(* ===================================================================== *)
(** ** The sensors: [read_temperature] *)
(* ===================================================================== *)

(** What a call of a sensor's [read_temperature] does: it returns, or an
    exception its [except] clause does not list leaves it. *)
Inductive read_outcome : Type :=
| Returned (temperature : option float)
| Propagated (exception_class : string).

Section Sensors.

(** The conversions of the builtin [float]: of a [str] (for the file
    sensor), of a decoded JSON value (for the HTTP sensor), of the decoded
    payload of an MQTT message.  [None] stands for the exception the
    conversion raises. *)
Variable float_of_str : string -> option float.
Variable json : Type.
Variable float_of_json : json -> option float.
Variable mqtt_payload : Type.
Variable float_of_payload : mqtt_payload -> option float.

(** [FileSensor.read_temperature].  [file] is [f.read().strip()], or [None]
    when opening or reading raised one of the errors the method catches. *)
Definition FileSensor_read_temperature (file : option string)
  : read_outcome :=
  match file with
  | None => Returned None
  | Some content =>
      if str_in newline content then
        match find (str_in "t=") (str_split content newline) with
        | Some line =>
            match nth_error (str_split line "t=") 1 with
            | Some temp_str =>
                Returned (option_map (fun x => fdiv x (of_Z 1000))
                            (float_of_str temp_str))
            | None => Propagated "IndexError"
            end
        | None => Returned (float_of_str content)
        end
      else Returned (float_of_str content)
  end.

(** The field names [HTTPSensor.read_temperature] tries, in its order. *)
Definition HTTPSensor_keys : list string :=
  ["temperature"; "temp"; "temp_c"; "celsius"; "value"].

Fixpoint HTTPSensor_scan (keys : list string) (data : list (string * json))
  : option float :=
  match keys with
  | [] => None
  | key :: keys' =>
      match dict_lookup data key with
      | Some v => float_of_json v
      | None => HTTPSensor_scan keys' data
      end
  end.

(** [HTTPSensor.read_temperature].  [response] is the JSON object of the
    body, or [None] when the request, the status check or the decoding
    raised. *)
Definition HTTPSensor_read_temperature
    (response : option (list (string * json))) : option float :=
  match response with
  | None => None
  | Some data => HTTPSensor_scan HTTPSensor_keys data
  end.

(** [MQTTSensor._on_message] on the field [_temperature], and
    [MQTTSensor.read_temperature], which returns the field. *)
Definition _on_message (_temperature : option float) (msg : mqtt_payload)
  : option float :=
  match float_of_payload msg with
  | Some t => Some t
  | None => _temperature
  end.

Definition MQTTSensor_after (msgs : list mqtt_payload) : option float :=
  fold_left _on_message msgs None.

End Sensors.

(** [GPIOSensor.read_temperature]. *)
Definition GPIOSensor_read_temperature : option float := None.

(** The last element of a list that is not [None]. *)
Fixpoint last_some {A : Type} (l : list (option A)) : option A :=
  match l with
  | [] => None
  | x :: l' =>
      match last_some l' with
      | Some y => Some y
      | None => x
      end
  end.

(* ===================================================================== *)
(** ** The notifiers: [send] *)
(* ===================================================================== *)

(** What a notifier hands to [requests]: the JSON document of a Telegram
    message, of a Discord embed, of the generic webhook.  The text of a
    Telegram message is kept as the parts it is formatted from. *)
Inductive request_body : Type :=
| TelegramData (chat_id : string) (red_emoji : bool) (text : message)
    (temperature : float)
| DiscordEmbed (alert_title : bool) (description : message) (color : Z)
    (temperature : float) (timestamp : string)
| WebhookPayload (alert : bool) (temperature : float) (text : message)
    (timestamp : string).

Inductive http_request : Type :=
| requests_post (url : string) (body : request_body)
| requests_get (url : string) (params : request_body).

(** Truth value of an optional [str]: [None] and the empty string are
    false. *)
Definition str_truthy (o : option string) : bool :=
  match o with
  | Some s => negb (String.eqb s "")
  | None => false
  end.

Section Notifiers.

(** [str.upper]. *)
Variable upper : string -> string.

(** [utcnow] is the value of [datetime.utcnow().isoformat()] at the call.
    The result lists the requests attempted; that one fails is logged and
    changes nothing else. *)
Definition TelegramNotifier_send (bot_token chat_id : option string)
    (utcnow : string) (c : send_call) : list http_request :=
  match bot_token, chat_id with
  | Some token, Some chat =>
      if str_truthy bot_token && str_truthy chat_id then
        [requests_post
           ("https://api.telegram.org/bot" ++ token ++ "/sendMessage")
           (TelegramData chat (sc_alert c) (sc_message c)
              (sc_temperature c))]
      else []
  | _, _ => []
  end.

Definition DiscordNotifier_send (webhook_url : option string)
    (utcnow : string) (c : send_call) : list http_request :=
  match webhook_url with
  | Some url =>
      if str_truthy webhook_url then
        [requests_post url
           (DiscordEmbed (sc_alert c) (sc_message c)
              (if sc_alert c then 16711680%Z else 65280%Z)
              (sc_temperature c) utcnow)]
      else []
  | None => []
  end.

Definition WebhookNotifier_send (url : option string) (method : string)
    (utcnow : string) (c : send_call) : list http_request :=
  match url with
  | Some u =>
      if str_truthy url then
        let payload :=
          WebhookPayload (sc_alert c) (sc_temperature c) (sc_message c)
            utcnow in
        if String.eqb (upper method) "POST"
        then [requests_post u payload]
        else [requests_get u payload]
      else []
  | None => []
  end.

Definition Notifier_send (n : Notifier) (utcnow : string) (c : send_call)
  : list http_request :=
  match n with
  | TelegramNotifier bot_token chat_id =>
      TelegramNotifier_send bot_token chat_id utcnow c
  | DiscordNotifier webhook_url => DiscordNotifier_send webhook_url utcnow c
  | WebhookNotifier url method => WebhookNotifier_send url method utcnow c
  end.

(** The requests attempted for a list of calls, each with the clock value
    of its moment. *)
Definition requests_of (n : Notifier) (calls : list (string * send_call))
  : list http_request :=
  flat_map (fun tc => Notifier_send n (fst tc) (snd tc)) calls.

End Notifiers.

(** The alert flag a request carries: the emoji of a Telegram message, the
    title of a Discord embed, the [alert] field of the webhook. *)
Definition body_alert (b : request_body) : bool :=
  match b with
  | TelegramData _ red _ _ => red
  | DiscordEmbed title _ _ _ _ => title
  | WebhookPayload alert _ _ _ => alert
  end.

Definition request_body_of (r : http_request) : request_body :=
  match r with
  | requests_post _ b => b
  | requests_get _ b => b
  end.

(** The notifier has what it needs to deliver. *)
Definition notifier_configured (n : Notifier) : bool :=
  match n with
  | TelegramNotifier bot_token chat_id =>
      str_truthy bot_token && str_truthy chat_id
  | DiscordNotifier webhook_url => str_truthy webhook_url
  | WebhookNotifier url _ => str_truthy url
  end.

(* ===================================================================== *)
(** ** [AlertConfig] defaults, [status] *)
(* ===================================================================== *)

(** [AlertConfig(threshold=..., check_interval=...)], the other fields at
    their defaults: what [main] builds without [--config]. *)
Definition AlertConfig_from_args (threshold : float) (interval : Z)
  : AlertConfig :=
  {| threshold := threshold;
     hysteresis := of_Z 1;
     check_interval := interval;
     rate_of_change_threshold := of_Z 5;
     notification_type := "webhook";
     notification_config := [] |}.

(** The dict [status] returns. *)
Record status_dict : Type := {
  st_running : bool;
  st_current_temp : option float;
  st_alert_active : bool;
  st_last_check : option string;
  st_history_count : nat
}.

Section Status.

(** [datetime.fromtimestamp(t).isoformat()]; [None] when [fromtimestamp]
    raises (a NaN, an infinity, a value out of range). *)
Variable isoformat : float -> option string.

Definition status (s : TemperatureAlert) : option status_dict :=
  let build last_check :=
    {| st_running := _running s;
       st_current_temp := _current_temp s;
       st_alert_active := _alert_active s;
       st_last_check := last_check;
       st_history_count := List.length (_history s) |} in
  match _last_check_time s with
  | Some t =>
      if truthy t
      then option_map (fun iso => build (Some iso)) (isoformat t)
      else Some (build None)
  | None => Some (build None)
  end.

End Status.

(* ===================================================================== *)
(** ** Facts on float comparisons *)
(* ===================================================================== *)

Section FloatOrder.

Lemma SFcompare_antisym (x y : spec_float) :
  SFcompare y x = option_map CompOpp (SFcompare x y).
Proof.
  destruct x as [sx|sx| |sx mx ex], y as [sy|sy| |sy my ey]; simpl;
    try reflexivity;
    try (destruct sx; reflexivity);
    try (destruct sy; reflexivity);
    try (destruct sx, sy; reflexivity).
  destruct sx, sy; simpl; try reflexivity;
    rewrite (Z.compare_antisym ex ey);
    destruct (ex ?= ey)%Z; simpl; try reflexivity;
    assert (H : Pos.compare_cont Eq my mx
                = CompOpp (Pos.compare_cont Eq mx my))
      by (rewrite Pos.compare_cont_antisym; reflexivity);
    rewrite H, ?CompOpp_involutive; reflexivity.
Qed.

(** [x < y] excludes [x >= y]. *)
Lemma ltb_not_geb (x y : float) :
  (x <? y)%py = true -> (x >=? y)%py = false.
Proof.
  unfold ltb, geb, SFltb, SFleb. rewrite (SFcompare_antisym x y).
  destruct (SFcompare x y) as [[ | | ]|]; simpl; congruence.
Qed.

(** [x <= y] excludes [y < x]. *)
Lemma leb_not_gtb (x y : float) :
  (x <=? y)%py = true -> (y <? x)%py = false.
Proof.
  unfold leb, ltb, SFltb, SFleb. rewrite (SFcompare_antisym x y).
  destruct (SFcompare x y) as [[ | | ]|]; simpl; congruence.
Qed.

(** A comparison with NaN is false. *)
Lemma nan_compares_false (x : float) :
  (nan >=? x)%py = false /\ (nan <? x)%py = false.
Proof. destruct x as [s|s| |s m e]; split; reflexivity. Qed.

End FloatOrder.

(* ===================================================================== *)
(** ** What [_check_alert] does to the world *)
(* ===================================================================== *)

Lemma set_alert_active_same (s : TemperatureAlert) :
  set_alert_active (_alert_active s) s = s.
Proof. destruct s; reflexivity. Qed.

(** The rate check leaves the object alone; it returns after at most one
    call of the notifier, or raises on a zero divisor before any call. *)
Lemma rate_of_change_check_cases (temperature now : float) (w : world) :
  rate_of_change_check temperature now w = Return tt w
  \/ (exists rate,
        rate_of_change_check temperature now w
        = Return tt (World (self w)
                       (sink w ++ [Send (TemperatureChangingTooFast rate)
                                     temperature true])))
  \/ (rate_of_change_check temperature now w = Raise ZeroDivisionError w
      /\ elapsed_minutes_underflow (self w) now = true).
Proof.
  destruct w as [s k]. unfold rate_of_change_check, bind, get_self. simpl.
  destruct (opt_truthy (_last_temp s) && opt_truthy (_last_check_time s));
    [|left; reflexivity].
  unfold elapsed_minutes_underflow.
  destruct (_last_temp s) as [lt|]; [|left; reflexivity].
  destruct (_last_check_time s) as [lc|]; [|left; reflexivity].
  destruct ((now - lc) >? zero)%py; [|left; reflexivity].
  unfold py_div.
  destruct (is_zero (fdiv (now - lc)%py sixty)).
  - right; right. split; reflexivity.
  - unfold ret. simpl.
    destruct (_ >? rate_of_change_threshold (alert_config s))%py.
    + right; left. eexists. reflexivity.
    + left. reflexivity.
Qed.

(** Without the underflow the rate check returns. *)
Lemma rate_of_change_check_returns (temperature now : float) (w : world) :
  elapsed_minutes_underflow (self w) now = false ->
  exists w',
    rate_of_change_check temperature now w = Return tt w'
    /\ self w' = self w.
Proof.
  intros Hu.
  destruct (rate_of_change_check_cases temperature now w)
    as [H | [[rate H] | [_ H]]].
  - exists w. auto.
  - eexists. split; [exact H | reflexivity].
  - congruence.
Qed.

Lemma threshold_check_spec (temperature : float) (w : world) :
  let b := hysteresis_decision (alert_config (self w))
             (_alert_active (self w)) temperature in
  threshold_check temperature w
  = Return b (World (set_alert_active b (self w)) (sink w)).
Proof.
  destruct w as [s k]. unfold threshold_check, hysteresis_decision, bind,
    get_self, modify, ret. simpl.
  destruct ((temperature >=? threshold (alert_config s))%py
            && negb (_alert_active s)); [reflexivity|].
  destruct ((temperature <? (threshold (alert_config s)
                             - hysteresis (alert_config s)))%py
            && _alert_active s); [reflexivity|].
  rewrite set_alert_active_same. reflexivity.
Qed.

(** [_check_alert] returns the decision of the threshold check as soon as
    the rate check returns. *)
Lemma _check_alert_returns (temperature now : float) (w : world) :
  elapsed_minutes_underflow (self w) now = false ->
  exists w',
    _check_alert temperature now w = Return (_alert_active (self w')) w'
    /\ self w'
       = set_alert_active
           (hysteresis_decision (alert_config (self w))
              (_alert_active (self w)) temperature)
           (self w).
Proof.
  intros Hu.
  destruct (rate_of_change_check_returns temperature now w Hu)
    as [w1 [H1 Hs]].
  unfold _check_alert, bind. rewrite H1.
  rewrite threshold_check_spec. rewrite Hs.
  match goal with
  | |- exists _, Return _ ?x = _ /\ _ => exists x
  end.
  split; reflexivity.
Qed.

(** Returning or raising, [_check_alert] changes no field of the object
    but [_alert_active]. *)
Lemma _check_alert_frame (temperature now : float) (w : world) :
  let w' := final_world (_check_alert temperature now w) in
  self w' = set_alert_active (_alert_active (self w')) (self w).
Proof.
  unfold _check_alert, bind.
  destruct (rate_of_change_check_cases temperature now w)
    as [H | [[rate H] | [H _]]]; rewrite H;
    try rewrite threshold_check_spec; simpl;
    rewrite ?set_alert_active_same; reflexivity.
Qed.

(* ===================================================================== *)
(** ** C1: the hysteresis classifier *)
(* ===================================================================== *)

(** C1.  Whatever the reading and the state, [_check_alert] returns (the
    clock not having advanced by an amount whose minutes round to zero),
    and: a reading [>= threshold] with the alarm off turns it on; a reading
    [< threshold - hysteresis] with the alarm on turns it off; a reading in
    the dead band [threshold - hysteresis <= reading < threshold] leaves
    the alarm as it was; the value returned is the alarm flag after the
    call. *)
Theorem check_alert_hysteresis (temperature now : float) (w : world) :
  elapsed_minutes_underflow (self w) now = false ->
  let c := alert_config (self w) in
  exists w',
    _check_alert temperature now w = Return (_alert_active (self w')) w'
    /\ ((temperature >=? threshold c)%py = true ->
        _alert_active (self w) = false ->
        _alert_active (self w') = true)
    /\ ((temperature <? (threshold c - hysteresis c))%py = true ->
        _alert_active (self w) = true ->
        _alert_active (self w') = false)
    /\ (((threshold c - hysteresis c) <=? temperature)%py = true ->
        (temperature <? threshold c)%py = true ->
        _alert_active (self w') = _alert_active (self w)).
Proof.
  intros Hu c.
  destruct (_check_alert_returns temperature now w Hu) as [w' [Hr Hs]].
  exists w'. split; [exact Hr|].
  rewrite Hs. simpl. fold c. unfold hysteresis_decision.
  repeat split.
  - intros Hge Ha. rewrite Hge, Ha. reflexivity.
  - intros Hlt Ha. rewrite Hlt, Ha. simpl.
    destruct (temperature >=? threshold c)%py; reflexivity.
  - intros Hle Hlt.
    rewrite (ltb_not_geb _ _ Hlt). simpl.
    rewrite (leb_not_gtb _ _ Hle). reflexivity.
Qed.

(** C1 at the readings 31.0 and 29.5 of the scenario of threshold 30.0 and
    hysteresis 1.0: in the dead band the alarm raised by 31.0 stays. *)
Lemma check_alert_hysteresis_witness :
  elapsed_minutes_underflow (self Examples.w_31) (of_Z 1060) = false
  /\ exists w',
       _check_alert Examples.t_29_5 (of_Z 1060) Examples.w_31
       = Return (_alert_active (self w')) w'
       /\ _alert_active (self w') = _alert_active (self Examples.w_31).
Proof.
  split; [reflexivity|].
  destruct (check_alert_hysteresis Examples.t_29_5 (of_Z 1060) Examples.w_31
              eq_refl) as [w' [Hr [_ [_ Hband]]]].
  exists w'. split; [exact Hr|].
  apply Hband; reflexivity.
Defined.

(* ===================================================================== *)
(** ** C2: the rate-of-change check and a previous reading of 0.0 *)
(* ===================================================================== *)

(** A previous reading that is a zero is not used as a baseline: the
    rate check returns at once. *)
Lemma rate_check_skips_zero_baseline (temperature now x : float) (w : world) :
  _last_temp (self w) = Some x ->
  is_zero x = true ->
  rate_of_change_check temperature now w = Return tt w.
Proof.
  intros Hl Hz. destruct w as [s k].
  unfold rate_of_change_check, bind, get_self. simpl in *.
  rewrite Hl. simpl. unfold truthy. rewrite Hz. reflexivity.
Qed.

(** With a previous reading and a previous clock value that are not zeros,
    the clock having advanced, the notifier is called by the rate check
    exactly when the rate exceeds the configured bound. *)
Lemma rate_check_nonzero_baseline
    (temperature now last_temp last_check_time : float) (w : world) :
  _last_temp (self w) = Some last_temp ->
  _last_check_time (self w) = Some last_check_time ->
  is_zero last_temp = false ->
  is_zero last_check_time = false ->
  ((now - last_check_time) >? zero)%py = true ->
  elapsed_minutes_underflow (self w) now = false ->
  let rate := fdiv (abs (temperature - last_temp)%py)
                (fdiv (now - last_check_time)%py sixty) in
  rate_of_change_check temperature now w
  = Return tt
      (World (self w)
         (sink w ++
          if (rate >? rate_of_change_threshold (alert_config (self w)))%py
          then [Send (TemperatureChangingTooFast rate) temperature true]
          else [])).
Proof.
  intros Hl Hc Hzl Hzc Hpos Hu rate. destruct w as [s k].
  unfold elapsed_minutes_underflow in Hu. simpl in *.
  rewrite Hc, Hpos in Hu. simpl in Hu.
  unfold rate_of_change_check, bind, get_self. simpl.
  rewrite Hl, Hc. simpl. unfold truthy. rewrite Hzl, Hzc. simpl.
  rewrite Hpos. unfold py_div. rewrite Hu. unfold ret. fold rate.
  destruct (rate >? rate_of_change_threshold (alert_config s))%py.
  - reflexivity.
  - rewrite app_nil_r. reflexivity.
Qed.

(** C2.  The engine has read 0.0 at second 1000; at second 1060 it reads
    10.0 with a bound of 5.0 per minute.  Both baseline values are
    present, one minute has elapsed and the rate, 10.0 per minute, exceeds
    the bound; [_check_alert] calls the notifier not once. *)
Theorem zero_baseline_hides_rate_event :
  let w := Examples.w_0 in
  let temperature := of_Z 10 in
  let now := of_Z 1060 in
  _last_temp (self w) = Some zero
  /\ _last_check_time (self w) = Some (of_Z 1000)
  /\ ((now - of_Z 1000) >? zero)%py = true
  /\ fdiv (abs (temperature - zero)%py) (fdiv (now - of_Z 1000)%py sixty)
     = of_Z 10
  /\ (of_Z 10 >? rate_of_change_threshold (alert_config (self w)))%py = true
  /\ _check_alert temperature now w = Return false w.
Proof. vm_compute. repeat split; reflexivity. Qed.

(* ===================================================================== *)
(** ** C3: which effects [_check_alert] has *)
(* ===================================================================== *)

(** C3, refuted as stated.  After a reading of 20.0 at second 1000, the
    reading 27.0 at second 1060 makes [_check_alert] itself call the
    notifier: the calls recorded after it are not those recorded before. *)
Lemma check_alert_calls_notifier :
  sink (final_world
          (_check_alert (of_Z 27) (of_Z 1060) Examples.w_20))
  <> sink Examples.w_20.
Proof. vm_compute. discriminate. Qed.

(** C3, amended.  [_check_alert] calls the notifier itself only to report
    a rate of change: at most once, with the rate message, the reading and
    [alert = True]; it sends no threshold message; and of the object it
    changes nothing but [_alert_active]. *)
Theorem check_alert_effects (temperature now : float) (w : world) :
  let w' := final_world (_check_alert temperature now w) in
  (sink w' = sink w
   \/ exists rate,
        sink w' = sink w ++ [Send (TemperatureChangingTooFast rate)
                               temperature true])
  /\ self w' = set_alert_active (_alert_active (self w')) (self w).
Proof.
  unfold _check_alert, bind.
  destruct (rate_of_change_check_cases temperature now w)
    as [H | [[rate H] | [H _]]]; rewrite H; clear H.
  - rewrite threshold_check_spec. simpl. split; [left|]; reflexivity.
  - rewrite threshold_check_spec. simpl. split; [right; eexists|];
      reflexivity.
  - simpl. rewrite set_alert_active_same. split; [left|]; reflexivity.
Qed.

(* ===================================================================== *)
(** ** One iteration of the loop *)
(* ===================================================================== *)

(** A failed read: nothing but the baseline update runs. *)
Lemma cycle_body_failed_read (k : tick) (w : world) :
  reading k = None ->
  cycle_body k w = Return tt (World (store_baseline k (self w)) (sink w)).
Proof.
  intros H. destruct w as [s c].
  unfold cycle_body, store_baseline, bind, modify, ret. rewrite H.
  reflexivity.
Qed.

(** A successful read: the reading is stored, [_check_alert] runs on the
    object so updated, and when it returns the threshold call and the
    baseline update follow. *)
Lemma cycle_body_reading (k : tick) (w : world) (temperature : float) :
  reading k = Some temperature ->
  cycle_body k w
  = match _check_alert temperature (t_check k)
            (World (store_reading temperature (self w)) (sink w)) with
    | Return alert w2 =>
        Return tt
          (World (store_baseline k (self w2))
             (sink w2 ++ threshold_calls alert (self w2) temperature))
    | Raise e w2 => Raise e w2
    end.
Proof.
  intros H. destruct w as [s c].
  unfold cycle_body, store_baseline, store_reading, bind, modify, get_self,
    ret. rewrite H. cbn [self sink].
  set (s2 := set_history _ _).
  destruct (100 <? List.length (_history s2))%nat;
    (destruct (_check_alert temperature (t_check k) _) as [[|] w2|e w2];
     [ reflexivity
     | cbn; unfold threshold_calls; rewrite app_nil_r; reflexivity
     | reflexivity ]).
Qed.

Lemma underflow_store_reading (temperature now : float)
    (s : TemperatureAlert) :
  elapsed_minutes_underflow (store_reading temperature s) now
  = elapsed_minutes_underflow s now.
Proof.
  unfold elapsed_minutes_underflow, store_reading.
  destruct (100 <? _)%nat; reflexivity.
Qed.

(** Without a baseline the rate check does nothing. *)
Lemma rate_check_without_baseline (temperature now : float) (w : world) :
  _last_temp (self w) = None ->
  rate_of_change_check temperature now w = Return tt w.
Proof.
  intros H. destruct w as [s c].
  unfold rate_of_change_check, bind, get_self. simpl in *. rewrite H.
  reflexivity.
Qed.

Lemma last_temp_store_reading (temperature : float) (s : TemperatureAlert) :
  _last_temp (store_reading temperature s) = _last_temp s.
Proof. unfold store_reading. destruct (100 <? _)%nat; reflexivity. Qed.

(** An iteration that starts without a baseline leaves the [try] block
    normally and adds no rate call to the notifier's record. *)
Lemma cycle_without_baseline (k : tick) (w : world) :
  _last_temp (self w) = None ->
  escaped k w = None
  /\ exists calls,
       sink (poll_cycle k w) = sink w ++ calls
       /\ forallb (fun c => negb (is_rate_call c)) calls = true.
Proof.
  intros Hl. unfold escaped, poll_cycle.
  destruct (reading k) as [temperature|] eqn:Hr.
  - rewrite (cycle_body_reading k w temperature Hr).
    unfold _check_alert, bind.
    rewrite rate_check_without_baseline
      by (simpl; rewrite last_temp_store_reading; exact Hl).
    rewrite threshold_check_spec. cbn [self sink].
    split; [reflexivity|].
    eexists. split; [reflexivity|].
    unfold threshold_calls. destruct (hysteresis_decision _ _ _); reflexivity.
  - rewrite (cycle_body_failed_read k w Hr). simpl.
    split; [reflexivity|]. exists []. rewrite app_nil_r. split; reflexivity.
Qed.

Lemma poll_cycle_failed_read (k : tick) (w : world) :
  reading k = None ->
  poll_cycle k w
  = World (set_last_check_time (Some (t_end k)) (set_last_temp None (self w)))
      (sink w).
Proof.
  intros H. unfold poll_cycle. rewrite (cycle_body_failed_read k w H).
  unfold store_baseline. rewrite H. reflexivity.
Qed.

(* ===================================================================== *)
(** ** C4, C5, C9: an iteration whose read failed *)
(* ===================================================================== *)

(** C4.  When [read_temperature] returns [None], the iteration leaves the
    [try] block without an exception, [_history] is what it was,
    [_last_temp] is [None] and [_last_check_time] is the clock value of
    this iteration; whatever the next iteration reads, it raises nothing
    and adds no rate call to the notifier's record. *)
Theorem failed_read_resets_baseline (k : tick) (w : world) :
  reading k = None ->
  let w' := poll_cycle k w in
  escaped k w = None
  /\ _history (self w') = _history (self w)
  /\ _last_temp (self w') = None
  /\ _last_check_time (self w') = Some (t_end k)
  /\ forall k' : tick,
       escaped k' w' = None
       /\ exists calls,
            sink (poll_cycle k' w') = sink w' ++ calls
            /\ forallb (fun c => negb (is_rate_call c)) calls = true.
Proof.
  intros Hr w'. subst w'.
  rewrite (poll_cycle_failed_read k w Hr). unfold escaped at 1.
  rewrite (cycle_body_failed_read k w Hr).
  repeat split; apply cycle_without_baseline; reflexivity.
Qed.

(** C4 on a run: 20.0 read at second 1000, a failed read at second 1060,
    then 90.0 read at second 1120; the jump of 70 degrees in two minutes
    goes unreported as a rate. *)
Lemma failed_read_resets_baseline_witness :
  reading (Examples.fail_at 1060) = None
  /\ _last_temp (self (poll_cycle (Examples.fail_at 1060) Examples.w_20))
     = None
  /\ exists calls,
       sink (poll_cycle (Examples.read_at 90 1120)
               (poll_cycle (Examples.fail_at 1060) Examples.w_20))
       = sink (poll_cycle (Examples.fail_at 1060) Examples.w_20) ++ calls
       /\ forallb (fun c => negb (is_rate_call c)) calls = true.
Proof.
  split; [reflexivity|].
  destruct (failed_read_resets_baseline (Examples.fail_at 1060) Examples.w_20
              eq_refl) as [_ [_ [Hl [_ Hnext]]]].
  split; [exact Hl|].
  exact (proj2 (Hnext (Examples.read_at 90 1120))).
Defined.

(** C5, refuted as stated.  20.0 is read at second 1000 and the read at
    second 1060 fails: [_current_temp] still holds 20.0. *)
Lemma failed_read_current_temp_not_none :
  _current_temp (self (poll_cycle (Examples.fail_at 1060) Examples.w_20))
  <> None.
Proof. vm_compute. discriminate. Qed.

(** C5, amended.  An iteration whose read failed leaves [_current_temp] as
    it was: [None] only if it was [None] before, otherwise the value the
    last successful read stored. *)
Theorem failed_read_keeps_current_temp (k : tick) (w : world) :
  reading k = None ->
  _current_temp (self (poll_cycle k w)) = _current_temp (self w).
Proof.
  intros Hr. rewrite (poll_cycle_failed_read k w Hr). reflexivity.
Qed.

Lemma failed_read_keeps_current_temp_witness :
  reading (Examples.fail_at 1060) = None
  /\ _current_temp (self (poll_cycle (Examples.fail_at 1060) Examples.w_20))
     = Some (of_Z 20).
Proof.
  split; [reflexivity|].
  rewrite (failed_read_keeps_current_temp (Examples.fail_at 1060)
             Examples.w_20 eq_refl).
  reflexivity.
Defined.

(** C9.  An iteration whose read failed changes [_last_temp], which
    becomes [None], and [_last_check_time], which becomes the clock value
    of the iteration, and nothing else: [_alert_active], [_current_temp]
    and [_history] are as before, and so are the configuration, the
    sensor, the notifier, the running flag and the notifier's record. *)
Theorem failed_read_frame (k : tick) (w : world) :
  reading k = None ->
  let s := self w in
  let s' := self (poll_cycle k w) in
  _alert_active s' = _alert_active s
  /\ _current_temp s' = _current_temp s
  /\ _history s' = _history s
  /\ _last_temp s' = None
  /\ _last_check_time s' = Some (t_end k)
  /\ s' = set_last_check_time (Some (t_end k)) (set_last_temp None s)
  /\ sink (poll_cycle k w) = sink w.
Proof.
  intros Hr s s'. subst s s'.
  rewrite (poll_cycle_failed_read k w Hr). repeat split; reflexivity.
Qed.

Lemma failed_read_frame_witness :
  reading (Examples.fail_at 1060) = None
  /\ _alert_active (self (poll_cycle (Examples.fail_at 1060) Examples.w_31))
     = true
  /\ _history (self (poll_cycle (Examples.fail_at 1060) Examples.w_31))
     = [of_Z 31]
  /\ sink (poll_cycle (Examples.fail_at 1060) Examples.w_31)
     = sink Examples.w_31.
Proof.
  split; [reflexivity|].
  destruct (failed_read_frame (Examples.fail_at 1060) Examples.w_31 eq_refl)
    as [Ha [_ [Hh [_ [_ [_ Hs]]]]]].
  split; [rewrite Ha; reflexivity|].
  split; [rewrite Hh; reflexivity|].
  exact Hs.
Defined.

(* ===================================================================== *)
(** ** C7: the threshold notification is level-triggered *)
(* ===================================================================== *)

(** C7.  In an iteration that obtained a reading (the clock not having
    advanced by an amount whose minutes round to zero), the calls added to
    the notifier's record are those of the rate check, all rate calls,
    followed by the threshold call (the threshold message, the reading,
    [alert = True]) when [_alert_active] is true after the iteration, and
    by nothing when it is false; whether the alarm was on before plays no
    part. *)
Theorem threshold_notification_level_triggered
    (k : tick) (w : world) (temperature : float) :
  reading k = Some temperature ->
  elapsed_minutes_underflow (self w) (t_check k) = false ->
  let w' := poll_cycle k w in
  exists rate_calls,
    forallb is_rate_call rate_calls = true
    /\ sink w'
       = sink w ++ rate_calls
         ++ threshold_calls (_alert_active (self w')) (self w') temperature
    /\ threshold_calls true (self w') temperature
       = [Send (TemperatureExceededThreshold
                  (threshold (alert_config (self w))))
            temperature true]
    /\ threshold_calls false (self w') temperature = [].
Proof.
  intros Hr Hu w'. subst w'. unfold poll_cycle.
  rewrite (cycle_body_reading k w temperature Hr).
  unfold _check_alert, bind.
  pose (w1 := World (store_reading temperature (self w)) (sink w)).
  assert (Hc : alert_config (store_reading temperature (self w))
               = alert_config (self w)).
  { unfold store_reading. destruct (100 <? _)%nat; reflexivity. }
  destruct (rate_of_change_check_cases temperature (t_check k) w1)
    as [H | [[rate H] | [_ H]]].
  - fold w1. rewrite H. rewrite threshold_check_spec.
    unfold threshold_calls, threshold_call, store_baseline.
    cbn [self sink w1 alert_config _alert_active set_last_check_time
         set_last_temp set_alert_active].
    rewrite Hc. exists []. repeat split; reflexivity.
  - fold w1. rewrite H. rewrite threshold_check_spec.
    unfold threshold_calls, threshold_call, store_baseline.
    cbn [self sink w1 alert_config _alert_active set_last_check_time
         set_last_temp set_alert_active].
    rewrite Hc. eexists [_]. rewrite <- app_assoc.
    repeat split; reflexivity.
  - unfold w1 in H. cbn [self] in H. rewrite underflow_store_reading in H.
    congruence.
Qed.

(** C7 on the alarm raised by 31.0 at second 1000: 30.5 read at second
    1060 keeps it on, and the threshold call is made again. *)
Lemma threshold_notification_level_triggered_witness :
  let k := Tick (Some (of_bits 61 (-1))) (of_Z 1060) (of_Z 1060) in
  (reading k = Some (of_bits 61 (-1))
   /\ elapsed_minutes_underflow (self Examples.w_31) (t_check k) = false)
  /\ _alert_active (self Examples.w_31) = true
  /\ exists rate_calls,
       forallb is_rate_call rate_calls = true
       /\ sink (poll_cycle k Examples.w_31)
          = sink Examples.w_31 ++ rate_calls
            ++ [Send (TemperatureExceededThreshold (of_Z 30))
                  (of_bits 61 (-1)) true].
Proof.
  intros k.
  split; [split; reflexivity|]. split; [reflexivity|].
  destruct (threshold_notification_level_triggered k Examples.w_31
              (of_bits 61 (-1)) eq_refl eq_refl)
    as [rate_calls [Hall [Hs _]]].
  exists rate_calls. split; [exact Hall|].
  rewrite Hs. reflexivity.
Defined.

(* ===================================================================== *)
(** ** C6: the history window *)
(* ===================================================================== *)

Section MostRecent.

Context {A : Type}.
Implicit Types l a b : list A.

Lemma most_recent_length n l : List.length (most_recent n l) <= n.
Proof. unfold most_recent. rewrite length_skipn. lia. Qed.

Lemma most_recent_short n l : List.length l <= n -> most_recent n l = l.
Proof.
  intros H. unfold most_recent.
  replace (List.length l - n) with 0 by lia. reflexivity.
Qed.

Lemma most_recent_app n a b :
  most_recent n (most_recent n a ++ b) = most_recent n (a ++ b).
Proof.
  destruct (Nat.le_gt_cases (List.length a) n) as [Hle | Hgt].
  - rewrite (most_recent_short n a Hle). reflexivity.
  - unfold most_recent.
    rewrite !length_app, length_skipn.
    replace (List.length a - (List.length a - n) + List.length b - n)
      with (List.length b) by lia.
    replace (List.length a + List.length b - n)
      with (List.length b + (List.length a - n)) by lia.
    rewrite <- skipn_skipn. f_equal.
    rewrite skipn_app.
    replace (List.length a - n - List.length a) with 0 by lia.
    reflexivity.
Qed.

(** Appending one entry and popping the head when that made more than
    [n] entries keeps the [n] most recent. *)
Lemma append_pop_most_recent n l (x : A) :
  List.length l <= n ->
  (if (n <? List.length (l ++ [x]))%nat then tl (l ++ [x]) else l ++ [x])
  = most_recent n (l ++ [x]).
Proof.
  intros H. unfold most_recent. rewrite length_app. simpl.
  destruct (Nat.ltb_spec n (List.length l + 1)) as [Hlt | Hge].
  - replace (List.length l + 1 - n) with 1 by lia.
    destruct (l ++ [x]); reflexivity.
  - replace (List.length l + 1 - n) with 0 by lia. reflexivity.
Qed.

End MostRecent.

Lemma history_store_reading (temperature : float) (s : TemperatureAlert) :
  List.length (_history s) <= 100 ->
  _history (store_reading temperature s)
  = most_recent 100 (_history s ++ [temperature]).
Proof.
  intros H. rewrite <- (append_pop_most_recent 100 _ temperature H).
  unfold store_reading. cbn [_history set_history set_current_temp].
  destruct (100 <? _)%nat; reflexivity.
Qed.

(** Whether the iteration leaves the [try] block normally or not, the
    history after it is the history with the reading stored. *)
Lemma history_poll_cycle (k : tick) (w : world) :
  _history (self (poll_cycle k w))
  = match reading k with
    | Some temperature => _history (store_reading temperature (self w))
    | None => _history (self w)
    end.
Proof.
  destruct (reading k) as [temperature|] eqn:Hr.
  - unfold poll_cycle. rewrite (cycle_body_reading k w temperature Hr).
    pose proof (_check_alert_frame temperature (t_check k)
                  (World (store_reading temperature (self w)) (sink w)))
      as He.
    destruct (_check_alert _ _ _) as [alert w2|e w2]; simpl in *;
      rewrite He; reflexivity.
  - rewrite (poll_cycle_failed_read k w Hr). reflexivity.
Qed.

Lemma running_store_reading (temperature : float) (s : TemperatureAlert) :
  _running (store_reading temperature s) = _running s.
Proof. unfold store_reading. destruct (100 <? _)%nat; reflexivity. Qed.

(** An iteration does not write the flag the loop tests. *)
Lemma running_poll_cycle (k : tick) (w : world) :
  _running (self (poll_cycle k w)) = _running (self w).
Proof.
  destruct (reading k) as [temperature|] eqn:Hr.
  - unfold poll_cycle. rewrite (cycle_body_reading k w temperature Hr).
    pose proof (_check_alert_frame temperature (t_check k)
                  (World (store_reading temperature (self w)) (sink w)))
      as He.
    destruct (_check_alert _ _ _) as [alert w2|e w2]; simpl in *;
      rewrite He; cbn [_running set_alert_active set_last_check_time
                       set_last_temp store_baseline];
      apply running_store_reading.
  - rewrite (poll_cycle_failed_read k w Hr). reflexivity.
Qed.

(** The history after a run of the started loop is made of the 100 most
    recent entries of the history before it followed by the readings of
    the run. *)
Lemma history_monitor_loop (ticks : list tick) :
  forall w : world,
    _running (self w) = true ->
    List.length (_history (self w)) <= 100 ->
    _history (self (_monitor_loop ticks w))
    = most_recent 100 (_history (self w) ++ successful_readings ticks).
Proof.
  induction ticks as [|k ticks IH]; intros w Hrun Hw.
  - simpl. rewrite app_nil_r. symmetry. apply most_recent_short. exact Hw.
  - cbn [_monitor_loop]. rewrite Hrun.
    assert (Hk : _history (self (poll_cycle k w))
                 = most_recent 100
                     (_history (self w)
                      ++ match reading k with
                         | Some r => [r]
                         | None => []
                         end)).
    { rewrite history_poll_cycle. destruct (reading k) as [r|].
      - apply history_store_reading. exact Hw.
      - rewrite app_nil_r. symmetry. apply most_recent_short. exact Hw. }
    rewrite IH;
      [ | rewrite running_poll_cycle; exact Hrun
        | rewrite Hk; apply most_recent_length ].
    rewrite Hk, most_recent_app, <- app_assoc. reflexivity.
Qed.

Lemma init_state (env : environment) (sc : SensorConfig) (ac : AlertConfig)
    (s : TemperatureAlert) :
  __init__ env sc ac = inr s ->
  _running s = false /\ _current_temp s = None /\ _alert_active s = false
  /\ _last_temp s = None /\ _last_check_time s = None /\ _history s = []
  /\ alert_config s = ac /\ sensor_config s = sc.
Proof.
  unfold __init__.
  destruct (_create_sensor env sc); [discriminate|].
  destruct (_create_notifier ac); [discriminate|].
  intros H. injection H as <-. repeat split; reflexivity.
Qed.

(** C6.  Once the engine is constructed and started, whatever the
    iterations of the loop, the history holds at most 100 entries, and they are the 100 most recent
    readings in the order they were read; after 101 readings it is the
    readings without the first. *)
Theorem history_bounded_fifo (env : environment) (sc : SensorConfig)
    (ac : AlertConfig) (s : TemperatureAlert) (ticks : list tick) :
  __init__ env sc ac = inr s ->
  let h := _history (self (_monitor_loop ticks (start (fresh_world s)))) in
  List.length h <= 100
  /\ h = most_recent 100 (successful_readings ticks)
  /\ (List.length (successful_readings ticks) = 101 ->
      h = tl (successful_readings ticks)
      /\ List.length h = 100
      /\ nth_error h 0 = nth_error (successful_readings ticks) 1).
Proof.
  intros Hi h.
  destruct (init_state env sc ac s Hi) as [Hf [_ [_ [_ [_ [Hh _]]]]]].
  assert (E : h = most_recent 100 (successful_readings ticks)).
  { subst h. unfold start, fresh_world. cbn [self sink]. rewrite Hf.
    rewrite history_monitor_loop; cbn [self set_running _history _running];
      [rewrite Hh; reflexivity | reflexivity | rewrite Hh; simpl; lia]. }
  split; [rewrite E; apply most_recent_length|].
  split; [exact E|].
  intros Hlen. rewrite E. unfold most_recent. rewrite Hlen.
  change (101 - 100) with 1.
  destruct (successful_readings ticks) as [|r rs]; [discriminate|].
  simpl in *. repeat split. lia.
Qed.

(** C6 on 101 readings 1.0, 2.0, ..., 101.0. *)
Lemma history_bounded_fifo_witness :
  __init__ Examples.env Examples.file_sensor Examples.alert_30
  = inr Examples.engine
  /\ _history (self (_monitor_loop (Examples.ramp 101) Examples.w_init))
     = map (fun i => of_Z (Z.of_nat i)) (seq 2 100).
Proof.
  split; [reflexivity|].
  destruct (history_bounded_fifo Examples.env Examples.file_sensor
              Examples.alert_30 Examples.engine (Examples.ramp 101) eq_refl)
    as [_ [_ H]].
  destruct (H eq_refl) as [Ht _].
  unfold Examples.w_init. rewrite Ht. vm_compute. reflexivity.
Defined.

(** A loop whose flag is off runs no iteration: nothing is read and the
    notifier is not called. *)
Lemma _monitor_loop_stopped (ticks : list tick) (w : world) :
  _monitor_loop ticks (stop w) = stop w.
Proof. destruct ticks; reflexivity. Qed.

(* ===================================================================== *)
(** ** C8: configuration errors belong to construction *)
(* ===================================================================== *)

Lemma unknown_sensor_message (t : string) :
  is_configuration_error (ValueError ("Unknown sensor type: " ++ t)) = true.
Proof. simpl. destruct t; reflexivity. Qed.

Lemma unknown_notification_message (t : string) :
  is_configuration_error (ValueError ("Unknown notification type: " ++ t))
  = true.
Proof. simpl. destruct t; reflexivity. Qed.

Lemma _create_sensor_unknown (env : environment) (sc : SensorConfig) :
  supported_sensor_type (sensor_type sc) = false ->
  _create_sensor env sc
  = inl (ValueError ("Unknown sensor type: " ++ sensor_type sc)).
Proof.
  unfold supported_sensor_type, _create_sensor. intros H.
  repeat (apply orb_false_elim in H; destruct H as [H ?]).
  repeat match goal with E : (_ =? _) = false |- _ => rewrite E; clear E end.
  reflexivity.
Qed.

Lemma _create_sensor_supported (env : environment) (sc : SensorConfig) :
  supported_sensor_type (sensor_type sc) = true ->
  (exists x, _create_sensor env sc = inr x)
  \/ (sensor_type sc = "mqtt"
      /\ exists e, _create_sensor env sc = inl e
                   /\ is_configuration_error e = false).
Proof.
  unfold supported_sensor_type, _create_sensor. intros H.
  destruct (sensor_type sc =? "file") eqn:Ef; [left; eexists; reflexivity|].
  destruct (sensor_type sc =? "http") eqn:Eh; [left; eexists; reflexivity|].
  destruct (sensor_type sc =? "mqtt") eqn:Em.
  - unfold MQTTSensor_init.
    destruct (negb (MQTT_AVAILABLE env)).
    + right. split; [apply String.eqb_eq; exact Em|].
      eexists. split; reflexivity.
    + destruct (mqtt_client_setup env (broker sc) (topic sc)).
      * right. split; [apply String.eqb_eq; exact Em|].
        eexists. split; reflexivity.
      * left. eexists. reflexivity.
  - destruct (sensor_type sc =? "gpio") eqn:Eg; [left; eexists; reflexivity|].
    discriminate.
Qed.

Lemma _create_notifier_unknown (ac : AlertConfig) :
  supported_notification_type (notification_type ac) = false ->
  _create_notifier ac
  = inl (ValueError
           ("Unknown notification type: " ++ notification_type ac)).
Proof.
  unfold supported_notification_type, _create_notifier. intros H.
  repeat (apply orb_false_elim in H; destruct H as [H ?]).
  repeat match goal with E : (_ =? _) = false |- _ => rewrite E; clear E end.
  reflexivity.
Qed.

Lemma _create_notifier_supported (ac : AlertConfig) :
  supported_notification_type (notification_type ac) = true ->
  exists n, _create_notifier ac = inr n.
Proof.
  unfold supported_notification_type, _create_notifier. intros H.
  destruct (notification_type ac =? "telegram"); [eexists; reflexivity|].
  destruct (notification_type ac =? "discord"); [eexists; reflexivity|].
  destruct (notification_type ac =? "webhook"); [eexists; reflexivity|].
  discriminate.
Qed.

(** The only exception that leaves the [try] block of an iteration is the
    division by a zero of the rate check. *)
Lemma escaped_is_zero_division (k : tick) (w : world) (e : exn) :
  escaped k w = Some e -> e = ZeroDivisionError.
Proof.
  unfold escaped. destruct (reading k) as [temperature|] eqn:Hr.
  - rewrite (cycle_body_reading k w temperature Hr).
    unfold _check_alert, bind.
    destruct (rate_of_change_check_cases temperature (t_check k)
                (World (store_reading temperature (self w)) (sink w)))
      as [H | [[rate H] | [H _]]]; rewrite H;
      try rewrite threshold_check_spec; congruence.
  - rewrite (cycle_body_failed_read k w Hr). discriminate.
Qed.

(** C8.  An unknown [sensor_type] makes the constructor raise the error of
    [_create_sensor]; an unknown [notification_type] makes the constructor
    raise too, the error of [_create_notifier] unless creating the sensor
    raised first; with both types supported the constructor raises no
    configuration error (it returns the object, unless the MQTT sensor
    could not be set up); and no iteration of the loop ever meets a
    configuration error. *)
Theorem configuration_error_only_at_construction
    (env : environment) (sc : SensorConfig) (ac : AlertConfig) :
  (supported_sensor_type (sensor_type sc) = false ->
   __init__ env sc ac
   = inl (ValueError ("Unknown sensor type: " ++ sensor_type sc)))
  /\ (supported_notification_type (notification_type ac) = false ->
      exists e, __init__ env sc ac = inl e
                /\ (e = ValueError ("Unknown notification type: "
                                    ++ notification_type ac)
                    \/ _create_sensor env sc = inl e))
  /\ (supported_sensor_type (sensor_type sc) = true ->
      supported_notification_type (notification_type ac) = true ->
      (exists s, __init__ env sc ac = inr s)
      \/ (sensor_type sc = "mqtt"
          /\ exists e, __init__ env sc ac = inl e
                       /\ is_configuration_error e = false))
  /\ (forall (k : tick) (w : world) (e : exn),
        escaped k w = Some e -> is_configuration_error e = false).
Proof.
  unfold __init__. repeat split.
  - intros H. rewrite (_create_sensor_unknown env sc H). reflexivity.
  - intros H. rewrite (_create_notifier_unknown ac H).
    destruct (_create_sensor env sc) as [e|x].
    + exists e. split; [reflexivity | right; reflexivity].
    + eexists. split; [reflexivity | left; reflexivity].
  - intros Hs Hn.
    destruct (_create_notifier_supported ac Hn) as [n Hn'].
    destruct (_create_sensor_supported env sc Hs)
      as [[x Hx] | [Hm [e [He Hc]]]].
    + left. rewrite Hx, Hn'. eexists. reflexivity.
    + right. split; [exact Hm|]. exists e. rewrite He. split; auto.
  - intros k w e H. rewrite (escaped_is_zero_division k w e H). reflexivity.
Qed.

(** C8 at [sensor_type = 'serial'], at [notification_type = 'email'] and
    at the supported pair ['file'], ['webhook']. *)
Lemma configuration_error_only_at_construction_witness :
  let serial :=
    {| sensor_type := "serial"; file_path := None; url := None;
       headers := None; broker := None; topic := None; pin := None |} in
  let email :=
    {| threshold := of_Z 30; hysteresis := of_Z 1; check_interval := 60;
       rate_of_change_threshold := of_Z 5; notification_type := "email";
       notification_config := [] |} in
  __init__ Examples.env serial Examples.alert_30
  = inl (ValueError "Unknown sensor type: serial")
  /\ (exists e, __init__ Examples.env Examples.file_sensor email = inl e)
  /\ (exists s,
        __init__ Examples.env Examples.file_sensor Examples.alert_30
        = inr s).
Proof.
  intros serial email.
  split; [|split].
  - exact (proj1 (configuration_error_only_at_construction
                    Examples.env serial Examples.alert_30) eq_refl).
  - destruct (proj1 (proj2 (configuration_error_only_at_construction
                              Examples.env Examples.file_sensor email))
                eq_refl) as [e [He _]].
    exists e. exact He.
  - destruct (proj1 (proj2 (proj2 (configuration_error_only_at_construction
                                     Examples.env Examples.file_sensor
                                     Examples.alert_30)))
                eq_refl eq_refl) as [Hs | [Hm _]].
    + exact Hs.
    + discriminate Hm.
Defined.

(* ===================================================================== *)
(** ** Runs of the loop on concrete readings *)
(* ===================================================================== *)

(** Threshold 30.0, hysteresis 1.0: the readings 28, 31, 29.5, 28.9 give
    the alarm flags off, on, on, off. *)
Example hysteresis_scenario :
  let k1 := Examples.read_at 28 1000 in
  let k2 := Examples.read_at 31 1060 in
  let k3 := Tick (Some Examples.t_29_5) (of_Z 1120) (of_Z 1120) in
  let k4 := Tick (Some Examples.t_28_9) (of_Z 1180) (of_Z 1180) in
  map (fun ticks => _alert_active (self (_monitor_loop ticks Examples.w_init)))
    [[k1]; [k1; k2]; [k1; k2; k3]; [k1; k2; k3; k4]]
  = [false; true; true; false].
Proof. vm_compute. reflexivity. Qed.

(** Bound 5.0 per minute: 20.0 then 27.0 one minute later is reported as a
    rate of 7.0 per minute, the alarm staying off. *)
Example rate_scenario :
  let w := _monitor_loop [Examples.read_at 20 1000; Examples.read_at 27 1060]
             Examples.w_init in
  sink w = [Send (TemperatureChangingTooFast (of_Z 7)) (of_Z 27) true]
  /\ _alert_active (self w) = false.
Proof. vm_compute. split; reflexivity. Qed.

(** The division of the rate check can raise: with clock values of
    [5e-324] and [1e-323] the elapsed minutes are [0.0].  The iteration
    logs the error; the reading is stored, the alarm and the baseline are
    not updated. *)
Example elapsed_minutes_can_underflow :
  let w := poll_cycle (Tick (Some (of_Z 20)) Examples.tiny Examples.tiny)
             Examples.w_init in
  let k := Tick (Some (of_Z 31)) Examples.two_tiny Examples.two_tiny in
  elapsed_minutes_underflow (self w) (t_check k) = true
  /\ escaped k w = Some ZeroDivisionError
  /\ _alert_active (self (poll_cycle k w)) = false
  /\ _last_temp (self (poll_cycle k w)) = Some (of_Z 20)
  /\ _history (self (poll_cycle k w)) = [of_Z 20; of_Z 31].
Proof. vm_compute. repeat split; reflexivity. Qed.

(* ===================================================================== *)
(** ** Whole runs of the loop *)
(* ===================================================================== *)

Lemma store_reading_fields (temperature : float) (s : TemperatureAlert) :
  sensor_config (store_reading temperature s) = sensor_config s
  /\ alert_config (store_reading temperature s) = alert_config s
  /\ sensor (store_reading temperature s) = sensor s
  /\ notifier (store_reading temperature s) = notifier s
  /\ _alert_active (store_reading temperature s) = _alert_active s
  /\ _last_check_time (store_reading temperature s) = _last_check_time s
  /\ _current_temp (store_reading temperature s) = Some temperature.
Proof.
  unfold store_reading. destruct (100 <? _)%nat; repeat split; reflexivity.
Qed.

(** The object after an iteration that obtained a reading: the reading
    stored, and then either the alarm flag decided and the baseline
    updated, or, the rate check having raised, nothing more. *)
Lemma poll_cycle_reading_self (k : tick) (w : world) (temperature : float) :
  reading k = Some temperature ->
  exists b : bool,
    self (poll_cycle k w)
    = store_baseline k
        (set_alert_active b (store_reading temperature (self w)))
    \/ self (poll_cycle k w) = store_reading temperature (self w).
Proof.
  intros Hr. unfold poll_cycle.
  rewrite (cycle_body_reading k w temperature Hr).
  unfold _check_alert, bind.
  destruct (rate_of_change_check_cases temperature (t_check k)
              (World (store_reading temperature (self w)) (sink w)))
    as [H | [[rate H] | [H _]]]; rewrite H;
    try rewrite threshold_check_spec; cbn [self sink].
  - eexists. left. reflexivity.
  - eexists. left. reflexivity.
  - exists false. right. reflexivity.
Qed.

(** An iteration writes none of the fields set at construction, and not
    the flag the loop tests. *)
Lemma poll_cycle_setup (k : tick) (w : world) :
  sensor_config (self (poll_cycle k w)) = sensor_config (self w)
  /\ alert_config (self (poll_cycle k w)) = alert_config (self w)
  /\ sensor (self (poll_cycle k w)) = sensor (self w)
  /\ notifier (self (poll_cycle k w)) = notifier (self w)
  /\ _running (self (poll_cycle k w)) = _running (self w).
Proof.
  destruct (reading k) as [temperature|] eqn:Hr.
  - destruct (store_reading_fields temperature (self w))
      as [H1 [H2 [H3 [H4 _]]]].
    pose proof (running_store_reading temperature (self w)) as H5.
    destruct (poll_cycle_reading_self k w temperature Hr) as [b [H | H]];
      rewrite H; cbn; repeat split; assumption.
  - rewrite (poll_cycle_failed_read k w Hr). repeat split; reflexivity.
Qed.

(** The calls an iteration adds: at most one rate call, then at most one
    threshold call, each with [alert = True] and the reading of the
    iteration. *)
Lemma poll_cycle_calls (k : tick) (w : world) :
  exists calls,
    sink (poll_cycle k w) = sink w ++ calls
    /\ List.length calls <= 2
    /\ Forall (fun c => sc_alert c = true
                        /\ reading k = Some (sc_temperature c)) calls
    /\ (reading k = None -> calls = []).
Proof.
  destruct (reading k) as [temperature|] eqn:Hr.
  - unfold poll_cycle. rewrite (cycle_body_reading k w temperature Hr).
    unfold _check_alert, bind.
    destruct (rate_of_change_check_cases temperature (t_check k)
                (World (store_reading temperature (self w)) (sink w)))
      as [H | [[rate H] | [H _]]]; rewrite H;
      try rewrite threshold_check_spec; cbn [self sink];
      unfold threshold_calls, threshold_call.
    + destruct (hysteresis_decision _ _ _); eexists;
        (split; [reflexivity|]); (split; [simpl; lia|]);
        (split; [repeat constructor | discriminate]).
    + destruct (hysteresis_decision _ _ _); eexists;
        (split; [rewrite <- app_assoc; reflexivity|]);
        (split; [simpl; lia|]);
        (split; [repeat constructor | discriminate]).
    + exists []. rewrite app_nil_r.
      split; [reflexivity|]. split; [simpl; lia|].
      split; [constructor | discriminate].
  - rewrite (poll_cycle_failed_read k w Hr). exists []. cbn.
    rewrite app_nil_r. repeat split; [lia | constructor].
Qed.

Lemma current_temp_poll_cycle (k : tick) (w : world) :
  _current_temp (self (poll_cycle k w))
  = match reading k with
    | Some temperature => Some temperature
    | None => _current_temp (self w)
    end.
Proof.
  destruct (reading k) as [temperature|] eqn:Hr.
  - destruct (store_reading_fields temperature (self w))
      as [_ [_ [_ [_ [_ [_ Hc]]]]]].
    destruct (poll_cycle_reading_self k w temperature Hr) as [b [H | H]];
      rewrite H; cbn; exact Hc.
  - rewrite (poll_cycle_failed_read k w Hr). reflexivity.
Qed.

Lemma successful_readings_cons (k : tick) (ticks : list tick) :
  successful_readings (k :: ticks)
  = match reading k with
    | Some r => r :: successful_readings ticks
    | None => successful_readings ticks
    end.
Proof. unfold successful_readings. simpl. destruct (reading k); reflexivity. Qed.

(** X1.  Whatever the run, the loop only appends to the notifier's record;
    every call it adds has [alert = True] and carries a temperature read
    during the run, and there are at most two calls for each reading
    obtained.  A call announcing that the temperature is back to normal
    ([alert = False]) is never made. *)
Theorem run_calls_are_alerts (ticks : list tick) (w : world) :
  exists calls,
    sink (_monitor_loop ticks w) = sink w ++ calls
    /\ Forall (fun c => sc_alert c = true
                        /\ In (sc_temperature c) (successful_readings ticks))
         calls
    /\ List.length calls <= 2 * List.length (successful_readings ticks).
Proof.
  revert w. induction ticks as [|k ticks IH]; intros w.
  - exists []. simpl. rewrite app_nil_r. repeat split; [constructor | lia].
  - cbn [_monitor_loop]. destruct (_running (self w)).
    + destruct (poll_cycle_calls k w) as [c1 [Hs1 [Hl1 [Hf1 Hn1]]]].
      destruct (IH (poll_cycle k w)) as [c2 [Hs2 [Hf2 Hl2]]].
      exists (c1 ++ c2). rewrite Hs2, Hs1, <- app_assoc.
      rewrite successful_readings_cons.
      split; [reflexivity|]. split.
      * apply Forall_app. split.
        -- eapply Forall_impl; [|exact Hf1]. intros c [Ha Hr].
           split; [exact Ha|]. rewrite Hr. left. reflexivity.
        -- eapply Forall_impl; [|exact Hf2]. intros c [Ha Hi].
           split; [exact Ha|]. destruct (reading k); [right|]; exact Hi.
      * rewrite length_app. destruct (reading k) as [r|].
        -- simpl. lia.
        -- rewrite (Hn1 eq_refl). simpl. lia.
    + exists []. rewrite app_nil_r. repeat split; [constructor | simpl; lia].
Qed.

(** X2.  A run writes none of [sensor_config], [alert_config], [sensor],
    [notifier] and [_running]: the loop cannot reconfigure the engine and
    cannot stop itself, whatever it reads and whatever is raised. *)
Theorem run_keeps_setup (ticks : list tick) (w : world) :
  let s' := self (_monitor_loop ticks w) in
  sensor_config s' = sensor_config (self w)
  /\ alert_config s' = alert_config (self w)
  /\ sensor s' = sensor (self w)
  /\ notifier s' = notifier (self w)
  /\ _running s' = _running (self w).
Proof.
  revert w. induction ticks as [|k ticks IH]; intros w.
  - repeat split; reflexivity.
  - cbn [_monitor_loop]. destruct (_running (self w)) eqn:Hrun.
    + destruct (IH (poll_cycle k w)) as [H1 [H2 [H3 [H4 H5]]]].
      destruct (poll_cycle_setup k w) as [G1 [G2 [G3 [G4 G5]]]].
      cbv zeta in *.
      rewrite H1, H2, H3, H4, H5, G1, G2, G3, G4, G5, Hrun.
      repeat split; reflexivity.
    + rewrite Hrun. repeat split; reflexivity.
Qed.

(** X3.  A run in which every read fails (the GPIO sensor, whose
    [read_temperature] always returns [None], gives only such runs) calls
    the notifier not once and leaves the alarm flag, the current
    temperature and the history as they were. *)
Theorem run_of_failed_reads (ticks : list tick) (w : world) :
  Forall (fun k => reading k = GPIOSensor_read_temperature) ticks ->
  let w' := _monitor_loop ticks w in
  sink w' = sink w
  /\ _alert_active (self w') = _alert_active (self w)
  /\ _current_temp (self w') = _current_temp (self w)
  /\ _history (self w') = _history (self w).
Proof.
  revert w. induction ticks as [|k ticks IH]; intros w Hall.
  - repeat split; reflexivity.
  - inversion Hall as [|k' ticks' Hk Hrest]; subst.
    cbn [_monitor_loop]. destruct (_running (self w)).
    + destruct (IH (poll_cycle k w) Hrest) as [H1 [H2 [H3 H4]]].
      cbv zeta in *. rewrite H1, H2, H3, H4.
      rewrite (poll_cycle_failed_read k w Hk). repeat split; reflexivity.
    + repeat split; reflexivity.
Qed.

Lemma run_of_failed_reads_witness :
  Forall (fun k => reading k = GPIOSensor_read_temperature)
    [Examples.fail_at 1060; Examples.fail_at 1120]
  /\ sink (_monitor_loop [Examples.fail_at 1060; Examples.fail_at 1120]
             Examples.w_31)
     = sink Examples.w_31
  /\ _alert_active
       (self (_monitor_loop [Examples.fail_at 1060; Examples.fail_at 1120]
                Examples.w_31))
     = true.
Proof.
  assert (H : Forall (fun k => reading k = GPIOSensor_read_temperature)
                [Examples.fail_at 1060; Examples.fail_at 1120])
    by (repeat constructor).
  split; [exact H|].
  destruct (run_of_failed_reads _ Examples.w_31 H) as [Hs [Ha _]].
  split; [exact Hs | rewrite Ha; reflexivity].
Defined.

(** X4.  After a run of the started loop, [_current_temp] is the last
    reading the run obtained, however many failed reads followed it; it is
    what it was before when the run obtained none. *)
Theorem current_temp_is_last_reading (ticks : list tick) (w : world) :
  _running (self w) = true ->
  _current_temp (self (_monitor_loop ticks w))
  = match last_some (map reading ticks) with
    | Some temperature => Some temperature
    | None => _current_temp (self w)
    end.
Proof.
  revert w. induction ticks as [|k ticks IH]; intros w Hrun.
  - reflexivity.
  - cbn [_monitor_loop]. rewrite Hrun.
    rewrite IH by (rewrite running_poll_cycle; exact Hrun).
    cbn [map last_some].
    destruct (last_some (map reading ticks)); [reflexivity|].
    rewrite current_temp_poll_cycle. destruct (reading k); reflexivity.
Qed.

Lemma current_temp_is_last_reading_witness :
  _running (self Examples.w_init) = true
  /\ _current_temp
       (self (_monitor_loop
                [Examples.read_at 20 1000; Examples.read_at 27 1060;
                 Examples.fail_at 1120]
                Examples.w_init))
     = Some (of_Z 27).
Proof.
  split; [reflexivity|].
  rewrite (current_temp_is_last_reading _ Examples.w_init eq_refl).
  reflexivity.
Defined.

(* ===================================================================== *)
(** ** The first reading, a reading that is NaN *)
(* ===================================================================== *)

(** X5.  The first iteration of a freshly constructed and started engine
    that obtains a reading raises nothing and makes no rate call: the
    alarm is on exactly when the reading is [>= threshold], the notifier
    receives the threshold call in that case and nothing otherwise, and
    the reading becomes the current temperature, the whole history and
    the baseline. *)
Theorem first_reading (env : environment) (sc : SensorConfig)
    (ac : AlertConfig) (s : TemperatureAlert) (k : tick)
    (temperature : float) :
  __init__ env sc ac = inr s ->
  reading k = Some temperature ->
  let w' := poll_cycle k (start (fresh_world s)) in
  let alert := (temperature >=? threshold ac)%py in
  escaped k (start (fresh_world s)) = None
  /\ _alert_active (self w') = alert
  /\ sink w'
     = (if alert
        then [Send (TemperatureExceededThreshold (threshold ac))
                temperature true]
        else [])
  /\ _current_temp (self w') = Some temperature
  /\ _history (self w') = [temperature]
  /\ _last_temp (self w') = Some temperature
  /\ _last_check_time (self w') = Some (t_end k).
Proof.
  intros Hi Hr.
  destruct (init_state env sc ac s Hi)
    as [Hrun [_ [Ha [Hl [_ [Hh [Hc _]]]]]]].
  unfold start, fresh_world. cbn [self sink]. rewrite Hrun.
  unfold escaped, poll_cycle.
  rewrite (cycle_body_reading k _ temperature Hr). cbn [self sink].
  unfold _check_alert, bind.
  rewrite rate_check_without_baseline
    by (cbn [self]; rewrite last_temp_store_reading; exact Hl).
  rewrite threshold_check_spec. cbn [self sink].
  unfold store_reading. cbn [_history set_current_temp set_running
                              set_history].
  rewrite Hh. cbn [app List.length Nat.ltb Nat.leb tl].
  unfold hysteresis_decision, threshold_calls, threshold_call,
    store_baseline.
  cbn [alert_config _alert_active set_history set_current_temp set_running
       set_alert_active set_last_temp set_last_check_time _current_temp
       _history _last_temp _last_check_time app].
  rewrite Hc, Ha, Hr. cbn [negb].
  rewrite andb_true_r, andb_false_r.
  destruct (temperature >=? threshold ac)%py; repeat split; reflexivity.
Qed.

(** X5 at the test of the repository: 35.0 read by an engine of threshold
    30.0. *)
Lemma first_reading_witness :
  (__init__ Examples.env Examples.file_sensor Examples.alert_30
   = inr Examples.engine
   /\ reading (Examples.read_at 35 1000) = Some (of_Z 35))
  /\ _alert_active (self (poll_cycle (Examples.read_at 35 1000)
                            Examples.w_init))
     = true
  /\ sink (poll_cycle (Examples.read_at 35 1000) Examples.w_init)
     = [Send (TemperatureExceededThreshold (of_Z 30)) (of_Z 35) true].
Proof.
  split; [split; reflexivity|].
  destruct (first_reading Examples.env Examples.file_sensor
              Examples.alert_30 Examples.engine
              (Examples.read_at 35 1000) (of_Z 35) eq_refl eq_refl)
    as [_ [Ha [Hs _]]].
  split; [exact Ha | exact Hs].
Defined.

Lemma sub_nan_l (y : float) : (nan - y)%py = nan.
Proof. destruct y; reflexivity. Qed.

Lemma sub_nan_r (x : float) : (x - nan)%py = nan.
Proof. destruct x; reflexivity. Qed.

Lemma fdiv_nan_l (y : float) : fdiv nan y = nan.
Proof. destruct y; reflexivity. Qed.

Lemma nan_not_gtb (y : float) : (nan >? y)%py = false.
Proof. destruct y; reflexivity. Qed.

(** When the reading or the previous reading is NaN, the rate check calls
    nothing. *)
Lemma rate_check_nan (temperature now : float) (w : world) :
  temperature = nan \/ _last_temp (self w) = Some nan ->
  elapsed_minutes_underflow (self w) now = false ->
  rate_of_change_check temperature now w = Return tt w.
Proof.
  intros Hnan Hu. destruct w as [s c].
  unfold elapsed_minutes_underflow in Hu.
  unfold rate_of_change_check, bind, get_self. cbn [self sink] in *.
  destruct (opt_truthy (_last_temp s) && opt_truthy (_last_check_time s));
    [|reflexivity].
  destruct (_last_temp s) as [lt|] eqn:El; [|reflexivity].
  destruct (_last_check_time s) as [lc|]; [|reflexivity].
  destruct ((now - lc) >? zero)%py; [|reflexivity].
  cbn [andb] in Hu. unfold py_div. rewrite Hu. unfold ret.
  assert (E : abs (temperature - lt)%py = nan).
  { destruct Hnan as [-> | H].
    - rewrite sub_nan_l. reflexivity.
    - injection H as ->. rewrite sub_nan_r. reflexivity. }
  rewrite E, fdiv_nan_l, nan_not_gtb. reflexivity.
Qed.

(** X6.  A reading that is NaN (the clock not having advanced by an amount
    whose minutes round to zero) raises nothing, leaves the alarm flag as
    it was and makes no rate call; the threshold call is repeated, with
    NaN as its temperature, when the alarm was on.  NaN is stored as the
    baseline, so that the iteration after it makes no rate call either,
    whatever it reads. *)
Theorem nan_reading (k k' : tick) (w : world) :
  reading k = Some nan ->
  elapsed_minutes_underflow (self w) (t_check k) = false ->
  elapsed_minutes_underflow (self (poll_cycle k w)) (t_check k') = false ->
  let w1 := poll_cycle k w in
  escaped k w = None
  /\ _alert_active (self w1) = _alert_active (self w)
  /\ sink w1
     = sink w ++ threshold_calls (_alert_active (self w)) (self w) nan
  /\ _last_temp (self w1) = Some nan
  /\ escaped k' w1 = None
  /\ exists calls,
       sink (poll_cycle k' w1) = sink w1 ++ calls
       /\ forallb (fun c => negb (is_rate_call c)) calls = true.
Proof.
  intros Hr Hu Hu' w1.
  destruct (store_reading_fields nan (self w))
    as [_ [Hc [_ [_ [Ha _]]]]].
  assert (H1 : cycle_body k w
               = Return tt
                   (World (store_baseline k
                             (set_alert_active (_alert_active (self w))
                                (store_reading nan (self w))))
                      (sink w ++ threshold_calls (_alert_active (self w))
                                   (self w) nan))).
  { rewrite (cycle_body_reading k w nan Hr). unfold _check_alert, bind.
    rewrite rate_check_nan;
      [ | left; reflexivity
        | cbn [self]; rewrite underflow_store_reading; exact Hu ].
    rewrite threshold_check_spec. cbn [self sink].
    unfold hysteresis_decision. rewrite Hc, Ha.
    destruct (nan_compares_false (threshold (alert_config (self w))))
      as [Hge _].
    destruct (nan_compares_false
                (threshold (alert_config (self w))
                 - hysteresis (alert_config (self w)))%py) as [_ Hlt].
    rewrite Hge, Hlt. cbn [andb].
    unfold threshold_calls, threshold_call.
    cbn [alert_config set_alert_active]. rewrite Hc. reflexivity. }
  assert (Hw1 : w1 = World (store_baseline k
                             (set_alert_active (_alert_active (self w))
                                (store_reading nan (self w))))
                      (sink w ++ threshold_calls (_alert_active (self w))
                                   (self w) nan)).
  { unfold w1, poll_cycle. rewrite H1. reflexivity. }
  assert (Hl : _last_temp (self w1) = Some nan).
  { rewrite Hw1. unfold store_baseline. rewrite Hr. reflexivity. }
  split; [unfold escaped; rewrite H1; reflexivity|].
  split; [rewrite Hw1; reflexivity|].
  split; [rewrite Hw1; reflexivity|].
  split; [exact Hl|].
  fold w1 in Hu'.
  destruct (reading k') as [t'|] eqn:Hr'.
  - unfold escaped, poll_cycle.
    rewrite (cycle_body_reading k' w1 t' Hr'). unfold _check_alert, bind.
    rewrite rate_check_nan;
      [ | right; cbn [self]; rewrite last_temp_store_reading; exact Hl
        | cbn [self]; rewrite underflow_store_reading; exact Hu' ].
    rewrite threshold_check_spec. cbn [self sink].
    split; [reflexivity|]. eexists. split; [reflexivity|].
    unfold threshold_calls. destruct (hysteresis_decision _ _ _);
      reflexivity.
  - unfold escaped. rewrite (cycle_body_failed_read k' w1 Hr').
    rewrite (poll_cycle_failed_read k' w1 Hr'). cbn [sink].
    split; [reflexivity|]. exists []. rewrite app_nil_r.
    split; reflexivity.
Qed.

(** X6 after the alarm raised by 31.0: the file then holds [nan], and one
    minute later 90.0. *)
Lemma nan_reading_witness :
  let k := Tick (Some nan) (of_Z 1060) (of_Z 1060) in
  let k' := Examples.read_at 90 1120 in
  (reading k = Some nan
   /\ elapsed_minutes_underflow (self Examples.w_31) (t_check k) = false
   /\ elapsed_minutes_underflow (self (poll_cycle k Examples.w_31))
        (t_check k') = false)
  /\ sink (poll_cycle k Examples.w_31)
     = sink Examples.w_31
       ++ [Send (TemperatureExceededThreshold (of_Z 30)) nan true]
  /\ exists calls,
       sink (poll_cycle k' (poll_cycle k Examples.w_31))
       = sink (poll_cycle k Examples.w_31) ++ calls
       /\ forallb (fun c => negb (is_rate_call c)) calls = true.
Proof.
  intros k k'.
  split; [repeat split; reflexivity|].
  destruct (nan_reading k k' Examples.w_31 eq_refl eq_refl eq_refl)
    as [_ [_ [Hs [_ [_ Hnext]]]]].
  split; [rewrite Hs; reflexivity | exact Hnext].
Defined.

(* ===================================================================== *)
(** ** Splitting and searching strings *)
(* ===================================================================== *)

Lemma split_from_not_nil (sep : string) (s : string) :
  forall skip, split_from sep skip s <> [].
Proof.
  induction s as [|c s IH]; intros skip; cbn [split_from].
  - discriminate.
  - destruct skip; [|apply IH].
    destruct (startswith (String c s) sep); [discriminate|].
    destruct (split_from sep 0 s); discriminate.
Qed.

(** A string in which the separator occurs splits into two pieces at
    least. *)
Lemma str_in_split_length (sep s : string) :
  sep <> EmptyString ->
  str_in sep s = true ->
  2 <= List.length (str_split s sep).
Proof.
  intros Hsep. unfold str_split.
  induction s as [|c s IH]; cbn [str_in split_from]; intros Hin.
  - destruct sep; [congruence | discriminate].
  - destruct (startswith (String c s) sep).
    + pose proof (split_from_not_nil sep s (String.length sep - 1)) as Hn.
      destruct (split_from sep (String.length sep - 1) s);
        [congruence | simpl; lia].
    + cbn [orb] in Hin. specialize (IH Hin).
      destruct (split_from sep 0 s) as [|p ps]; simpl in *; lia.
Qed.

(** A string in which the separator does not occur is its only piece. *)
Lemma split_without_separator (sep s : string) :
  str_in sep s = false -> str_split s sep = [s].
Proof.
  unfold str_split.
  induction s as [|c s IH]; cbn [str_in split_from]; intros Hin.
  - reflexivity.
  - apply orb_false_elim in Hin. destruct Hin as [Hs Hin].
    rewrite Hs, (IH Hin). reflexivity.
Qed.

Lemma startswith_marker_app (c : Ascii.ascii) (a b : string) :
  startswith (String c a) "t=" = false ->
  startswith (String c (a ++ "t=" ++ b)) "t=" = false.
Proof.
  cbn [startswith]. destruct (Ascii.eqb _ c); [|reflexivity].
  destruct a as [|d a]; [reflexivity|].
  change ((String d a ++ "t=" ++ b)%string)
    with (String d (a ++ "t=" ++ b)).
  cbn [startswith]. exact (fun H => H).
Qed.

(** The piece before the first ["t="] and the pieces of what follows. *)
Lemma split_at_marker (a b : string) :
  str_in "t=" a = false ->
  str_split (a ++ "t=" ++ b) "t=" = a :: str_split b "t=".
Proof.
  unfold str_split. induction a as [|c a IH]; intros Hin.
  - reflexivity.
  - cbn [str_in] in Hin. apply orb_false_elim in Hin.
    destruct Hin as [Hs Hin].
    change ((String c a ++ "t=" ++ b)%string)
      with (String c (a ++ "t=" ++ b)).
    cbn [split_from]. rewrite (startswith_marker_app c a b Hs).
    rewrite (IH Hin). reflexivity.
Qed.

Lemma str_in_marker_app (a b : string) :
  str_in "t=" (a ++ "t=" ++ b) = true.
Proof.
  induction a as [|c a IH].
  - destruct b; reflexivity.
  - change ((String c a ++ "t=" ++ b)%string)
      with (String c (a ++ "t=" ++ b)).
    cbn [str_in]. rewrite IH. apply orb_true_r.
Qed.

Lemma find_first {A : Type} (p : A -> bool) (l1 l2 : list A) (x : A) :
  Forall (fun y => p y = false) l1 ->
  p x = true ->
  find p (l1 ++ x :: l2) = Some x.
Proof.
  intros Hall Hx. induction Hall as [|y l1 Hy _ IH]; simpl.
  - rewrite Hx. reflexivity.
  - rewrite Hy. exact IH.
Qed.

(* ===================================================================== *)
(** ** The sensors *)
(* ===================================================================== *)

Section SensorFacts.

Variable float_of_str : string -> option float.
Variable json : Type.
Variable float_of_json : json -> option float.
Variable mqtt_payload : Type.
Variable float_of_payload : mqtt_payload -> option float.

(** X7.  [FileSensor.read_temperature] always returns: the element [1] it
    takes of [line.split('t=')] exists for every line the test
    ['t=' in line] lets through, so that no [IndexError], which the
    [except] clause does not list, can leave the method. *)
Theorem file_sensor_always_returns (file : option string) :
  exists temperature,
    FileSensor_read_temperature float_of_str file = Returned temperature.
Proof.
  unfold FileSensor_read_temperature.
  destruct file as [content|]; [|eexists; reflexivity].
  destruct (str_in newline content); [|eexists; reflexivity].
  destruct (find (str_in "t=") (str_split content newline)) as [line|] eqn:Hf;
    [|eexists; reflexivity].
  apply find_some in Hf. destruct Hf as [_ Hin].
  assert (Hsep : "t=" <> EmptyString) by discriminate.
  pose proof (str_in_split_length "t=" line Hsep Hin) as Hlen.
  destruct (str_split line "t=") as [|p [|q ps]]; simpl in Hlen; try lia.
  eexists. reflexivity.
Qed.

(** X8.  The Dallas 1-wire format.  When the text has several lines and
    the first of them in which ["t="] occurs reads [a ++ "t=" ++ b], with
    no other ["t="] in it, the temperature is the number [b] divided by
    1000.0; when [b] is not a number the read fails, whatever the lines
    after it hold. *)
Theorem file_sensor_dallas (content a b : string)
    (before after : list string) :
  str_in newline content = true ->
  str_split content newline = before ++ (a ++ "t=" ++ b)%string :: after ->
  Forall (fun line => str_in "t=" line = false) before ->
  str_in "t=" a = false ->
  str_in "t=" b = false ->
  FileSensor_read_temperature float_of_str (Some content)
  = Returned (option_map (fun x => fdiv x (of_Z 1000)) (float_of_str b)).
Proof.
  intros Hnl Hsplit Hbefore Ha Hb.
  unfold FileSensor_read_temperature. rewrite Hnl, Hsplit.
  rewrite (find_first (str_in "t=") before after _ Hbefore
             (str_in_marker_app a b)).
  rewrite (split_at_marker a b Ha), (split_without_separator "t=" b Hb).
  reflexivity.
Qed.

(** X9.  A response in which none of the five field names occurs gives no
    temperature, whatever else it holds. *)
Theorem http_sensor_no_known_key (data : list (string * json)) :
  Forall (fun key => dict_lookup data key = None) HTTPSensor_keys ->
  HTTPSensor_read_temperature json float_of_json (Some data) = None.
Proof.
  unfold HTTPSensor_read_temperature.
  induction HTTPSensor_keys as [|key keys IH]; intros Hall.
  - reflexivity.
  - inversion Hall as [|k ks Hk Hrest]; subst. cbn [HTTPSensor_scan].
    rewrite Hk. exact (IH Hrest).
Qed.

(** X10.  The first of the five field names that occurs in the response
    decides: the temperature is the conversion of its value, and when that
    conversion fails the read fails, the fields under the later names not
    being tried. *)
Theorem http_sensor_first_key_decides (data : list (string * json))
    (earlier later : list string) (key : string) (v : json) :
  HTTPSensor_keys = earlier ++ key :: later ->
  Forall (fun k => dict_lookup data k = None) earlier ->
  dict_lookup data key = Some v ->
  HTTPSensor_read_temperature json float_of_json (Some data)
  = float_of_json v.
Proof.
  intros Hkeys Hall Hv. unfold HTTPSensor_read_temperature. rewrite Hkeys.
  clear Hkeys. induction Hall as [|k ks Hk _ IH]; cbn [app HTTPSensor_scan].
  - rewrite Hv. reflexivity.
  - rewrite Hk. exact IH.
Qed.

Lemma on_message_fold (msgs : list mqtt_payload) :
  forall t : option float,
    fold_left (_on_message mqtt_payload float_of_payload) msgs t
    = match last_some (map float_of_payload msgs) with
      | Some x => Some x
      | None => t
      end.
Proof.
  induction msgs as [|m msgs IH]; intros t; cbn [fold_left map last_some].
  - reflexivity.
  - rewrite IH. unfold _on_message.
    destruct (last_some (map float_of_payload msgs)); [reflexivity|].
    destruct (float_of_payload m); reflexivity.
Qed.

(** X11.  [MQTTSensor.read_temperature] returns the temperature of the
    last message whose payload converts, the messages that do not convert
    being passed over; it returns [None] as long as no payload has
    converted. *)
Theorem mqtt_sensor_last_valid_payload (msgs : list mqtt_payload) :
  MQTTSensor_after mqtt_payload float_of_payload msgs
  = last_some (map float_of_payload msgs).
Proof.
  unfold MQTTSensor_after. rewrite on_message_fold.
  destruct (last_some (map float_of_payload msgs)); reflexivity.
Qed.

(** X12.  Once a payload has converted, no later message brings
    [MQTTSensor.read_temperature] back to [None]: the sensor never reports
    a failed read again. *)
Theorem mqtt_sensor_never_fails_again (msgs more : list mqtt_payload) :
  MQTTSensor_after mqtt_payload float_of_payload msgs <> None ->
  MQTTSensor_after mqtt_payload float_of_payload (msgs ++ more) <> None.
Proof.
  unfold MQTTSensor_after. rewrite fold_left_app.
  destruct (fold_left _ msgs None) as [t|]; [intros _|congruence].
  rewrite on_message_fold.
  destruct (last_some (map float_of_payload more)); discriminate.
Qed.

End SensorFacts.

(** X8 on the two lines a DS18B20 writes. *)
Lemma file_sensor_dallas_witness :
  let l1 := "aa 01 4b 46 7f ff 0c 10 12 : crc=12 YES" in
  let content := (l1 ++ newline ++ "aa 01 4b 46 7f ff 0c 10 12 t=23500")%string in
  let float_of_str :=
    fun s : string => if String.eqb s "23500" then Some (of_Z 23500) else None in
  (str_in newline content = true
   /\ str_split content newline
      = [l1] ++ ("aa 01 4b 46 7f ff 0c 10 12 " ++ "t=" ++ "23500")%string :: []
   /\ Forall (fun line => str_in "t=" line = false) [l1]
   /\ str_in "t=" "aa 01 4b 46 7f ff 0c 10 12 " = false
   /\ str_in "t=" "23500" = false)
  /\ FileSensor_read_temperature float_of_str (Some content)
     = Returned (Some (of_bits 47 (-1))).
Proof.
  intros l1 content float_of_str.
  assert (H1 : str_in newline content = true) by reflexivity.
  assert (H2 : str_split content newline
               = [l1] ++ ("aa 01 4b 46 7f ff 0c 10 12 " ++ "t=" ++ "23500")%string
                          :: []) by reflexivity.
  assert (H3 : Forall (fun line => str_in "t=" line = false) [l1])
    by (repeat constructor).
  assert (H4 : str_in "t=" "aa 01 4b 46 7f ff 0c 10 12 " = false)
    by reflexivity.
  assert (H5 : str_in "t=" "23500" = false) by reflexivity.
  split; [repeat split; assumption|].
  rewrite (file_sensor_dallas float_of_str content _ _ _ _ H1 H2 H3 H4 H5).
  vm_compute. reflexivity.
Defined.

Lemma http_sensor_no_known_key_witness :
  Forall (fun key => dict_lookup [("humidity", 40%Z)] key = None)
    HTTPSensor_keys
  /\ HTTPSensor_read_temperature Z (fun z => Some (of_Z z))
       (Some [("humidity", 40%Z)])
     = None.
Proof.
  assert (H : Forall (fun key => dict_lookup [("humidity", 40%Z)] key = None)
                HTTPSensor_keys) by (repeat constructor).
  split; [exact H|].
  exact (http_sensor_no_known_key Z (fun z => Some (of_Z z)) _ H).
Defined.

(** X10 on a response whose [temp] is not a number while its [value] is
    one. *)
Lemma http_sensor_first_key_decides_witness :
  let data := [("value", Some 22%Z); ("temp", None)] in
  let float_of_json := option_map of_Z in
  (HTTPSensor_keys = ["temperature"] ++ "temp" :: ["temp_c"; "celsius"; "value"]
   /\ Forall (fun k => dict_lookup data k = None) ["temperature"]
   /\ dict_lookup data "temp" = Some None)
  /\ HTTPSensor_read_temperature (option Z) float_of_json (Some data) = None.
Proof.
  intros data float_of_json.
  assert (H1 : HTTPSensor_keys
               = ["temperature"] ++ "temp" :: ["temp_c"; "celsius"; "value"])
    by reflexivity.
  assert (H2 : Forall (fun k => dict_lookup data k = None) ["temperature"])
    by (repeat constructor).
  assert (H3 : dict_lookup data "temp" = Some None) by reflexivity.
  split; [repeat split; assumption|].
  rewrite (http_sensor_first_key_decides (option Z) float_of_json data
             _ _ _ _ H1 H2 H3).
  reflexivity.
Defined.

Lemma mqtt_sensor_never_fails_again_witness :
  let float_of_payload :=
    fun s : string => if String.eqb s "21" then Some (of_Z 21) else None in
  MQTTSensor_after string float_of_payload ["21"] <> None
  /\ MQTTSensor_after string float_of_payload (["21"] ++ ["garbage"])
     <> None.
Proof.
  intros float_of_payload.
  assert (H : MQTTSensor_after string float_of_payload ["21"] <> None)
    by discriminate.
  split; [exact H|].
  exact (mqtt_sensor_never_fails_again string float_of_payload
           ["21"] ["garbage"] H).
Defined.

(* ===================================================================== *)
(** ** The notifiers and what reaches the network *)
(* ===================================================================== *)

Lemma notifier_monitor_loop (ticks : list tick) :
  forall w : world,
    notifier (self (_monitor_loop ticks w)) = notifier (self w).
Proof.
  induction ticks as [|k ticks IH]; intros w; cbn [_monitor_loop].
  - reflexivity.
  - destruct (_running (self w)); [|reflexivity].
    rewrite IH. apply poll_cycle_setup.
Qed.

Lemma running_monitor_loop (ticks : list tick) :
  forall w : world,
    _running (self (_monitor_loop ticks w)) = _running (self w).
Proof.
  induction ticks as [|k ticks IH]; intros w; cbn [_monitor_loop].
  - reflexivity.
  - destruct (_running (self w)) eqn:Hrun; [|exact Hrun].
    rewrite IH, running_poll_cycle. exact Hrun.
Qed.

Lemma monitor_loop_alert_calls (ticks : list tick) :
  forall w : world,
  exists calls,
    sink (_monitor_loop ticks w) = sink w ++ calls
    /\ Forall (fun c => sc_alert c = true) calls.
Proof.
  induction ticks as [|k ticks IH]; intros w; cbn [_monitor_loop].
  - exists []. rewrite app_nil_r. split; [reflexivity | constructor].
  - destruct (_running (self w)).
    + destruct (poll_cycle_calls k w) as [c1 [Hs1 [_ [Hf1 _]]]].
      destruct (IH (poll_cycle k w)) as [c2 [Hs2 Hf2]].
      exists (c1 ++ c2). rewrite Hs2, Hs1, <- app_assoc.
      split; [reflexivity|]. apply Forall_app. split; [|exact Hf2].
      eapply Forall_impl; [|exact Hf1]. intros c [Ha _]. exact Ha.
    + exists []. rewrite app_nil_r. split; [reflexivity | constructor].
Qed.

Section NotifierFacts.

Variable upper : string -> string.

(** X13.  A notifier that lacks a credential (a missing or empty
    [bot_token] or [chat_id], a missing or empty URL) attempts no request
    when it is called; one that has them attempts exactly one request for
    each call, carrying the alert flag of the call. *)
Theorem notifier_delivers_iff_configured (n : Notifier) (utcnow : string)
    (c : send_call) :
  if notifier_configured n
  then exists r,
         Notifier_send upper n utcnow c = [r]
         /\ body_alert (request_body_of r) = sc_alert c
  else Notifier_send upper n utcnow c = [].
Proof.
  destruct n as [bot_token chat_id | webhook_url | url method];
    cbn [notifier_configured Notifier_send].
  - unfold TelegramNotifier_send.
    destruct bot_token as [token|], chat_id as [chat|]; cbn [str_truthy andb];
      try reflexivity.
    + destruct (negb (token =? "") && negb (chat =? ""));
        [eexists; split; reflexivity | reflexivity].
    + destruct (negb (token =? "")); reflexivity.
  - unfold DiscordNotifier_send.
    destruct webhook_url as [u|]; cbn [str_truthy]; [|reflexivity].
    destruct (negb (u =? "")); [eexists; split; reflexivity | reflexivity].
  - unfold WebhookNotifier_send.
    destruct url as [u|]; cbn [str_truthy]; [|reflexivity].
    destruct (negb (u =? "")); [|reflexivity].
    destruct (upper method =? "POST"); eexists; split; reflexivity.
Qed.

(** X14.  An engine whose [AlertConfig] is built from a threshold and an
    interval alone, as [main] does without [--config], has a webhook
    notifier without URL: whatever the loop reads and however often it
    calls the notifier, no request is ever attempted. *)
Theorem command_line_engine_is_silent (env : environment)
    (sc : SensorConfig) (threshold : float) (interval : Z)
    (s : TemperatureAlert) (ticks : list tick)
    (calls : list (string * send_call)) :
  __init__ env sc (AlertConfig_from_args threshold interval) = inr s ->
  let w' := _monitor_loop ticks (start (fresh_world s)) in
  notifier (self w') = WebhookNotifier None "POST"
  /\ requests_of upper (notifier (self w')) calls = [].
Proof.
  intros Hi w'.
  assert (Hn : notifier (self w') = WebhookNotifier None "POST").
  { subst w'. rewrite notifier_monitor_loop.
    unfold __init__ in Hi.
    destruct (_create_sensor env sc); [discriminate|].
    cbn in Hi. injection Hi as <-.
    unfold start, fresh_world. reflexivity. }
  split; [exact Hn|]. rewrite Hn.
  unfold requests_of. induction calls as [|c calls IH]; [reflexivity|].
  cbn [flat_map]. rewrite IH. reflexivity.
Qed.

(** X15.  Whatever notifier the engine has, every request a run makes it
    attempt is an alert: the red emoji for Telegram, the alert title and
    the colour 16711680 for Discord, [alert = True] for the webhook.  The
    green embed and the all-clear texts of the notifiers are never sent by
    the engine. *)
Theorem run_requests_are_alerts (ticks : list tick) (w : world)
    (stamped : list (string * send_call)) (r : http_request) :
  sink (_monitor_loop ticks w) = sink w ++ map snd stamped ->
  In r (requests_of upper (notifier (self w)) stamped) ->
  body_alert (request_body_of r) = true
  /\ forall title description color temperature timestamp,
       request_body_of r
       = DiscordEmbed title description color temperature timestamp ->
       color = 16711680%Z.
Proof.
  intros Hs Hin.
  destruct (monitor_loop_alert_calls ticks w) as [calls [Hc Hall]].
  rewrite Hc in Hs. apply app_inv_head in Hs. subst calls.
  unfold requests_of in Hin. apply in_flat_map in Hin.
  destruct Hin as [[ts c] [Hc' Hr]]. cbn [fst snd] in Hr.
  assert (Ha : sc_alert c = true).
  { rewrite Forall_forall in Hall. apply Hall.
    apply in_map_iff. exists (ts, c). split; [reflexivity | exact Hc']. }
  destruct (notifier (self w)) as [bot_token chat_id | webhook_url | url method];
    cbn [Notifier_send] in Hr.
  - unfold TelegramNotifier_send in Hr.
    destruct bot_token, chat_id; try contradiction.
    destruct (_ && _); [|contradiction].
    destruct Hr as [<- | []]. cbn. split; [exact Ha | discriminate].
  - unfold DiscordNotifier_send in Hr.
    destruct webhook_url; [|contradiction].
    destruct (str_truthy _); [|contradiction].
    destruct Hr as [<- | []]. cbn. split; [exact Ha|].
    intros title description color temperature timestamp H.
    injection H as _ _ <- _ _. rewrite Ha. reflexivity.
  - unfold WebhookNotifier_send in Hr.
    destruct url; [|contradiction].
    destruct (str_truthy _); [|contradiction].
    destruct (upper _ =? "POST");
      destruct Hr as [<- | []]; cbn; (split; [exact Ha | discriminate]).
Qed.

End NotifierFacts.

Lemma command_line_engine_is_silent_witness :
  let sc := Examples.file_sensor in
  let ac := AlertConfig_from_args (of_Z 30) 60 in
  let s :=
    {| sensor_config := sc; alert_config := ac;
       sensor := FileSensor (Some "/tmp/temp");
       notifier := WebhookNotifier None "POST";
       _running := false; _current_temp := None; _alert_active := false;
       _last_temp := None; _last_check_time := None; _history := [] |} in
  let w' := _monitor_loop [Examples.read_at 35 1000] (start (fresh_world s)) in
  __init__ Examples.env sc ac = inr s
  /\ List.length (sink w') = 1
  /\ requests_of (fun m => m) (notifier (self w'))
       (map (fun c => ("2026-01-01T00:00:00", c)) (sink w'))
     = [].
Proof.
  intros sc ac s w'.
  split; [reflexivity|]. split; [reflexivity|].
  exact (proj2 (command_line_engine_is_silent (fun m => m) Examples.env sc
                  (of_Z 30) 60 s [Examples.read_at 35 1000] _ eq_refl)).
Defined.

(** X15 on a Discord engine that reads 35.0 above its threshold of 30.0. *)
Lemma run_requests_are_alerts_witness :
  let s :=
    {| sensor_config := Examples.file_sensor;
       alert_config := Examples.alert_30;
       sensor := FileSensor (Some "/tmp/temp");
       notifier := DiscordNotifier (Some "https://discord.com/api/webhooks/test");
       _running := true; _current_temp := None; _alert_active := false;
       _last_temp := None; _last_check_time := None; _history := [] |} in
  let w := World s [] in
  let call := Send (TemperatureExceededThreshold (of_Z 30)) (of_Z 35) true in
  let r := requests_post "https://discord.com/api/webhooks/test"
             (DiscordEmbed true (TemperatureExceededThreshold (of_Z 30))
                16711680 (of_Z 35) "2026-01-01T00:00:00") in
  (sink (_monitor_loop [Examples.read_at 35 1000] w)
   = sink w ++ map snd [("2026-01-01T00:00:00", call)]
   /\ In r (requests_of (fun m => m) (notifier (self w))
              [("2026-01-01T00:00:00", call)]))
  /\ body_alert (request_body_of r) = true.
Proof.
  intros s w call r.
  assert (H1 : sink (_monitor_loop [Examples.read_at 35 1000] w)
               = sink w ++ map snd [("2026-01-01T00:00:00", call)])
    by reflexivity.
  assert (H2 : In r (requests_of (fun m => m) (notifier (self w))
                       [("2026-01-01T00:00:00", call)]))
    by (left; reflexivity).
  split; [split; assumption|].
  exact (proj1 (run_requests_are_alerts (fun m => m) _ w _ r H1 H2)).
Defined.

(* ===================================================================== *)
(** ** [status] *)
(* ===================================================================== *)

Lemma most_recent_length_min {A : Type} (n : nat) (l : list A) :
  List.length (most_recent n l) = Nat.min n (List.length l).
Proof. unfold most_recent. rewrite length_skipn. lia. Qed.

Section StatusFacts.

Variable isoformat : float -> option string.

(** X16.  [status] on an engine constructed, started and run: it raises
    only when the stored clock value cannot be formatted; the dict it
    returns says that the engine is running, holds the alarm flag and the
    current temperature of the object, and counts as history the number
    of readings obtained, capped at 100; before the first iteration its
    [last_check] is [None]. *)
Theorem status_after_run (env : environment) (sc : SensorConfig)
    (ac : AlertConfig) (s : TemperatureAlert) (ticks : list tick) :
  __init__ env sc ac = inr s ->
  let s' := self (_monitor_loop ticks (start (fresh_world s))) in
  (status isoformat s' = None ->
   exists t, _last_check_time s' = Some t /\ isoformat t = None)
  /\ (forall d,
        status isoformat s' = Some d ->
        st_running d = true
        /\ st_alert_active d = _alert_active s'
        /\ st_current_temp d = _current_temp s'
        /\ st_history_count d
           = Nat.min 100 (List.length (successful_readings ticks))
        /\ (ticks = [] -> st_last_check d = None)).
Proof.
  intros Hi s'.
  destruct (init_state env sc ac s Hi) as [Hf [_ [_ [_ [Hlc [Hh _]]]]]].
  assert (Hstart : start (fresh_world s)
                   = World (set_running true s) []).
  { unfold start, fresh_world. cbn [self sink]. rewrite Hf. reflexivity. }
  assert (Hrun : _running s' = true).
  { subst s'. rewrite running_monitor_loop, Hstart. reflexivity. }
  assert (Hcount : List.length (_history s')
                   = Nat.min 100 (List.length (successful_readings ticks))).
  { subst s'. rewrite Hstart.
    rewrite history_monitor_loop;
      cbn [self set_running _history _running];
      [ | reflexivity | rewrite Hh; simpl; lia ].
    rewrite Hh. apply most_recent_length_min. }
  unfold status. split.
  - destruct (_last_check_time s') as [t|]; [|discriminate].
    destruct (truthy t); [|discriminate].
    destruct (isoformat t) eqn:Hiso; [discriminate|].
    intros _. exists t. split; [reflexivity | exact Hiso].
  - intros d Hd.
    assert (Hfields : st_running d = _running s'
                      /\ st_alert_active d = _alert_active s'
                      /\ st_current_temp d = _current_temp s'
                      /\ st_history_count d = List.length (_history s')).
    { destruct (_last_check_time s') as [t|].
      - destruct (truthy t).
        + destruct (isoformat t); [|discriminate].
          injection Hd as <-. repeat split; reflexivity.
        + injection Hd as <-. repeat split; reflexivity.
      - injection Hd as <-. repeat split; reflexivity. }
    destruct Hfields as [F1 [F2 [F3 F4]]].
    rewrite F1, F4, Hrun, Hcount.
    repeat split; try assumption.
    intros ->. subst s'. cbn [_monitor_loop] in Hd. rewrite Hstart in Hd.
    cbn [self set_running _last_check_time] in Hd. rewrite Hlc in Hd.
    injection Hd as <-. reflexivity.
Qed.

End StatusFacts.

(** X16 after 101 readings: the count is 100. *)
Lemma status_after_run_witness :
  let isoformat := fun _ : float => Some "1970-01-01T01:41:00" in
  __init__ Examples.env Examples.file_sensor Examples.alert_30
  = inr Examples.engine
  /\ forall d,
       status isoformat
         (self (_monitor_loop (Examples.ramp 101)
                  (start (fresh_world Examples.engine))))
       = Some d ->
       st_running d = true /\ st_history_count d = 100.
Proof.
  intros isoformat. split; [reflexivity|].
  intros d Hd.
  destruct (proj2 (status_after_run isoformat Examples.env
                     Examples.file_sensor Examples.alert_30 Examples.engine
                     (Examples.ramp 101) eq_refl) d Hd)
    as [Hr [_ [_ [Hc _]]]].
  split; [exact Hr|]. rewrite Hc. reflexivity.
Defined.

(* ===================================================================== *)
(** ** Alarm transitions, iterations left by an exception *)
(* ===================================================================== *)

(** X17.  An iteration changes the alarm flag only by a crossing: from off
    to on with a reading [>= threshold], from on to off with a reading
    [< threshold - hysteresis].  A failed read, an iteration left by an
    exception and every other reading leave the flag as it was. *)
Theorem alarm_changes_only_on_crossing (k : tick) (w : world) :
  let c := alert_config (self w) in
  let before := _alert_active (self w) in
  let after := _alert_active (self (poll_cycle k w)) in
  after = before
  \/ exists temperature,
       reading k = Some temperature
       /\ ((before = false /\ after = true
            /\ (temperature >=? threshold c)%py = true)
           \/ (before = true /\ after = false
               /\ (temperature <? (threshold c - hysteresis c))%py = true)).
Proof.
  intros c before after. subst c before after.
  destruct (reading k) as [temperature|] eqn:Hr.
  - destruct (store_reading_fields temperature (self w))
      as [_ [Hc [_ [_ [Ha _]]]]].
    unfold poll_cycle. rewrite (cycle_body_reading k w temperature Hr).
    unfold _check_alert, bind.
    destruct (rate_of_change_check_cases temperature (t_check k)
                (World (store_reading temperature (self w)) (sink w)))
      as [H | [[rate H] | [H _]]]; rewrite H;
      try rewrite threshold_check_spec; cbn [self sink];
      try (left; exact Ha);
      unfold store_baseline;
      cbn [_alert_active set_last_check_time set_last_temp
           set_alert_active];
      unfold hysteresis_decision; rewrite Hc, Ha;
      destruct (_alert_active (self w));
      destruct (temperature >=? threshold (alert_config (self w)))%py eqn:Hge;
      destruct (temperature <? (threshold (alert_config (self w))
                                - hysteresis (alert_config (self w))))%py
        eqn:Hlt;
      cbn [andb negb];
      try (left; reflexivity);
      right; exists temperature; (split; [reflexivity|]);
      try (left; repeat split; (reflexivity || assumption));
      right; repeat split; (reflexivity || assumption).
  - left. rewrite (poll_cycle_failed_read k w Hr). reflexivity.
Qed.


